(** * tw-stock-report: the position ledger, the two price resolvers and
      the portfolio aggregator of [stock_report.py], embedded and verified.

    Python values are modelled as the interpreter has them: [float] is
    IEEE-754 binary64 (the executable [SpecFloat] model), [str] is the UTF-8
    byte string, [None] is [option], a [dict] keyed by header label is a
    [gmap], and a raised exception is the [Raise] branch of [result].
    Network access is a [world] of oracles; every call the aggregator makes
    on it is recorded in a trace. *)

From Stdlib Require Import ZArith String List Ascii Bool Lia Sorted.
From Stdlib Require Import Floats.SpecFloat.
From stdpp Require Import base gmap strings list.

Local Open Scope string_scope.
Local Open Scope list_scope.
Local Open Scope Z_scope.

(* ===================================================================== *)
(** ** The Python runtime the program relies on                           *)
(* ===================================================================== *)

Module Py.

(** Exceptions that can escape the modelled functions. *)
Inductive exn : Type :=
| ZeroDivisionError
| IndexError
| OverflowError
| TransportError (what : string).

Inductive result (A : Type) : Type :=
| Ok (a : A)
| Raise (e : exn).
Arguments Ok {A} a.
Arguments Raise {A} e.

Definition rbind {A B} (r : result A) (f : A -> result B) : result B :=
  match r with
  | Ok a => f a
  | Raise e => Raise e
  end.

(** *** float: binary64 *)

Definition float : Type := spec_float.
Definition prec : Z := 53.
Definition emax : Z := 1024.

(** [float(n)] for an integer literal [n] (exact below 2^53). *)
Definition of_Z (n : Z) : float := binary_normalize prec emax n 0 false.

Definition fzero : float := S754_zero false.
Definition fadd : float -> float -> float := SFadd prec emax.
Definition fsub : float -> float -> float := SFsub prec emax.
Definition fmul : float -> float -> float := SFmul prec emax.
Definition fdiv : float -> float -> float := SFdiv prec emax.
Definition feqb : float -> float -> bool := SFeqb.
Definition fltb : float -> float -> bool := SFltb.
Definition fleb : float -> float -> bool := SFleb.

Definition is_zero (x : float) : bool :=
  match x with
  | S754_zero _ => true
  | _ => false
  end.

Definition is_finite (x : float) : bool :=
  match x with
  | S754_zero _ | S754_finite _ _ _ => true
  | _ => false
  end.

(** [x / y]: true division raises on a zero divisor, otherwise it is the
    IEEE quotient. *)
Definition truediv (x y : float) : result float :=
  if is_zero y then Raise ZeroDivisionError else Ok (fdiv x y).

(** [x or 0.0] on an optional float: [None] and both zeros are falsy. *)
Definition or_zero (x : option float) : float :=
  match x with
  | None => fzero
  | Some v => if is_zero v then fzero else v
  end.

(** *** list indexing, negative indices included *)

Definition index {A} (l : list A) (i : Z) : result A :=
  let n := Z.of_nat (length l) in
  let j := if i <? 0 then i + n else i in
  if (0 <=? j) && (j <? n)
  then match nth_error l (Z.to_nat j) with
       | Some x => Ok x
       | None => Raise IndexError
       end
  else Raise IndexError.

(** *** str.strip() and str.replace(",", "") on UTF-8 text *)

Definition bytes_of (codes : list nat) : string :=
  string_of_list_ascii (List.map ascii_of_nat codes).

(** The code points for which [str.isspace] holds, UTF-8 encoded. *)
Definition whitespace : list string :=
  List.map bytes_of
    [ [9%nat]; [10%nat]; [11%nat]; [12%nat]; [13%nat];
      [28%nat]; [29%nat]; [30%nat]; [31%nat]; [32%nat];
      [194; 133]%nat; [194; 160]%nat; [225; 154; 128]%nat;
      [226; 128; 128]%nat; [226; 128; 129]%nat; [226; 128; 130]%nat;
      [226; 128; 131]%nat; [226; 128; 132]%nat; [226; 128; 133]%nat;
      [226; 128; 134]%nat; [226; 128; 135]%nat; [226; 128; 136]%nat;
      [226; 128; 137]%nat; [226; 128; 138]%nat; [226; 128; 168]%nat;
      [226; 128; 169]%nat; [226; 128; 175]%nat; [226; 129; 159]%nat;
      [227; 128; 128]%nat ].

Definition string_rev (s : string) : string :=
  string_of_list_ascii (List.rev (list_ascii_of_string s)).

(** Drop one leading occurrence of one of [ws], if there is one. *)
Definition drop_one (ws : list string) (s : string) : option string :=
  match List.find (fun w => String.prefix w s) ws with
  | Some w => Some (String.substring (String.length w)
                      (String.length s - String.length w)%nat s)
  | None => None
  end.

Fixpoint drop_leading (ws : list string) (fuel : nat) (s : string) : string :=
  match fuel with
  | O => s
  | S fuel' =>
      match drop_one ws s with
      | Some s' => drop_leading ws fuel' s'
      | None => s
      end
  end.

Definition lstrip (s : string) : string :=
  drop_leading whitespace (String.length s) s.

Definition rstrip (s : string) : string :=
  string_rev (drop_leading (List.map string_rev whitespace)
                (String.length s) (string_rev s)).

Definition strip (s : string) : string := rstrip (lstrip s).

(** [s.replace(",", "")] *)
Fixpoint remove_commas (s : string) : string :=
  match s with
  | EmptyString => EmptyString
  | String a rest =>
      if Ascii.eqb a ","%char then remove_commas rest
      else String a (remove_commas rest)
  end.

(** *** a reference [float(str)] for plain decimal literals

    [float] itself is a parameter of the model (the [builtin_float] of a
    [world], below).
    The examples instantiate it with this reader of [[+-]digits[.digits]]:
    when the digits form an integer below 2^53 and there are at most 22
    fractional digits, numerator and power of ten are exact binary64 values
    and their correctly rounded quotient is the value CPython returns.
    Every other spelling is outside this reader and yields [None]. *)

Definition digit_of (a : ascii) : option Z :=
  let n := Z.of_nat (nat_of_ascii a) in
  if (48 <=? n) && (n <=? 57) then Some (n - 48) else None.

(** Read a run of digits: accumulated value, digits read, rest. *)
Fixpoint read_digits (s : string) (acc : Z) (cnt : Z) : Z * Z * string :=
  match s with
  | EmptyString => (acc, cnt, s)
  | String a rest =>
      match digit_of a with
      | Some d => read_digits rest (10 * acc + d) (cnt + 1)
      | None => (acc, cnt, s)
      end
  end.

Definition float_of_decimal (s : string) : option float :=
  let '(neg, body) :=
    match s with
    | String "-"%char rest => (true, rest)
    | String "+"%char rest => (false, rest)
    | _ => (false, s)
    end in
  let '(ip, icnt, rest) := read_digits body 0 0 in
  let '(n, fcnt, tail, cnt) :=
    match rest with
    | String "."%char frac =>
        let '(v, c, t) := read_digits frac ip 0 in (v, c, t, icnt + c)
    | _ => (ip, 0, rest, icnt)
    end in
  match tail with
  | EmptyString =>
      if (0 <? cnt) && (n <? 2 ^ 53) && (fcnt <=? 22)
      then
        let q := fdiv (of_Z n) (of_Z (10 ^ fcnt)) in
        Some (if neg then SFopp q else q)
      else None
  | _ => None
  end.

End Py.

(* ===================================================================== *)
(** ** Calendar dates ([datetime.date])                                   *)
(* ===================================================================== *)

Module Date.

Record date : Type := mk { year : Z; month : Z; day : Z }.

(** Dates compare by (year, month, day). *)
Definition compare (a b : date) : comparison :=
  match year a ?= year b with
  | Eq => match month a ?= month b with
          | Eq => day a ?= day b
          | c => c
          end
  | c => c
  end.

Definition leb (a b : date) : bool :=
  match compare a b with Gt => false | _ => true end.

Definition ltb (a b : date) : bool :=
  match compare a b with Lt => true | _ => false end.

Definition is_leap (y : Z) : bool :=
  (y mod 4 =? 0) && (negb (y mod 100 =? 0) || (y mod 400 =? 0)).

Definition days_in_month (y m : Z) : Z :=
  if m =? 2 then (if is_leap y then 29 else 28)
  else if (m =? 4) || (m =? 6) || (m =? 9) || (m =? 11) then 30
  else 31.

(** [d.replace(day=n)] (used with [n = 1] only, always a valid day). *)
Definition replace_day (d : date) (n : Z) : date :=
  {| year := year d; month := month d; day := n |}.

(** [d - timedelta(days=1)]; leaving year 1 raises [OverflowError]. *)
Definition minus_one_day (d : date) : Py.result date :=
  if 1 <? day d then Py.Ok {| year := year d; month := month d; day := day d - 1 |}
  else if 1 <? month d
  then Py.Ok {| year := year d; month := month d - 1;
                day := days_in_month (year d) (month d - 1) |}
  else if 1 <? year d
  then Py.Ok {| year := year d - 1; month := 12; day := 31 |}
  else Py.Raise Py.OverflowError.

(** [max(dates)] on a non-empty list: the first maximal element. *)
Definition max_from (d0 : date) (ds : list date) : date :=
  fold_left (fun best d => if ltb best d then d else best) ds d0.

End Date.

(* ===================================================================== *)
(** ** Records exchanged with the two exchanges and the news feed         *)
(* ===================================================================== *)

(** One daily row of the TWSE month table, as [fetch_twse_month] builds it:
    [{"date": ..., "close": ..., "change": ...}]. *)
Record twse_row : Type := mk_row {
  r_date : option Date.date;
  r_close : option Py.float;
  r_change : option Py.float
}.

(** The value of [fetch_twse_month]: [{"name": ..., "rows": ...}]. *)
Record twse_month : Type := mk_month {
  m_name : option string;
  m_rows : list twse_row
}.

(** The value of [fetch_twse_latest]. *)
Record twse_latest : Type := mk_latest {
  t_source : string;
  t_name : option string;
  t_latest : twse_row;
  t_prev : option twse_row
}.

(** The value of [fetch_tpex_latest_all]. *)
Record tpex_table : Type := mk_tpex {
  x_header : list string;
  x_hmap : gmap string Z;
  x_rows : list (list string)
}.

Record news_entry : Type := mk_news {
  n_title : string; n_link : string; n_pub : string; n_source : string
}.

(** What lies behind [http_get] and the interpreter's [float]:
    - [builtin_float s] is [float(s)], [None] standing for [ValueError];
    - [twse_month_of stock_no y m] is what [fetch_twse_month] returns for a
      date of year [y] and month [m] (only [%Y%m] of its argument reaches
      the request), or the exception it raises;
    - [tpex_csv] is the list [csv.reader] yields for the downloaded TPEx
      table, or the exception raised on the way;
    - [google_news code name] is the value of [fetch_google_news]. *)
Record world : Type := mk_world {
  builtin_float : string -> option Py.float;
  twse_month_of : string -> Z -> Z -> Py.result (option twse_month);
  tpex_csv : Py.result (list (list string));
  google_news : string -> option string -> Py.result (list news_entry)
}.

(* ===================================================================== *)
(** ** Calls on the outside world, recorded                               *)
(* ===================================================================== *)

Module IO.
Import Py.

Inductive event : Type :=
| CallTwseMonth (stock_no : string) (y m : Z)
| CallTpexAll
| CallTpexRow (code : string)
| CallNews (code : string) (name : option string).

(** A computation yields the calls it made, in order, and its outcome. *)
Definition M (A : Type) : Type := list event * result A.

Definition ret {A} (a : A) : M A := ([], Ok a).

Definition bind {A B} (m : M A) (f : A -> M B) : M B :=
  match m with
  | (t1, Ok a) => let '(t2, r) := f a in (t1 ++ t2, r)
  | (t1, Raise e) => (t1, Raise e)
  end.

Definition emit (e : event) : M unit := ([e], Ok tt).

Definition lift {A} (r : result A) : M A := ([], r).

Definition trace {A} (m : M A) : list event := fst m.
Definition outcome {A} (m : M A) : result A := snd m.

End IO.

Notation "'do' x <- c ; k" := (IO.bind c (fun x => k))
  (at level 10, x name, c at level 100, k at level 200).

(* ===================================================================== *)
(** ** Position ledger: [add_holding]                                     *)
(* ===================================================================== *)

Module Ledger.
Import Py.

(** One row of [read_holdings]: [{"code", "lots", "avg_cost"}]. *)
Record holding : Type := mk {
  h_code : string;
  h_lots : float;
  h_avg_cost : float
}.

(** The update of the matching row [r] (lines 58-64). *)
Definition update_row (r : holding) (lots avg_cost : float) : result holding :=
  let total_lots := fadd (h_lots r) lots in
  if fleb total_lots fzero
  then Ok {| h_code := h_code r; h_lots := total_lots; h_avg_cost := avg_cost |}
  else
    rbind (truediv (fadd (fmul (h_lots r) (h_avg_cost r)) (fmul lots avg_cost))
                   total_lots)
          (fun avg => Ok {| h_code := h_code r; h_lots := total_lots;
                            h_avg_cost := avg |}).

(** The [for r in rows] loop: the first row whose code matches is updated
    in place and the loop returns; [None] when no row matches. *)
Fixpoint update_first (rows : list holding) (code : string)
         (lots avg_cost : float) : result (option (list holding)) :=
  match rows with
  | [] => Ok None
  | r :: rest =>
      if String.eqb (h_code r) code
      then rbind (update_row r lots avg_cost) (fun r' => Ok (Some (r' :: rest)))
      else rbind (update_first rest code lots avg_cost)
                 (fun o => Ok (option_map (cons r) o))
  end.

(** [add_holding(code, lots, avg_cost)], from the rows [read_holdings]
    returned to the rows handed to [write_holdings]. *)
Definition add_holding (rows : list holding) (code : string)
           (lots avg_cost : float) : result (list holding) :=
  let code := strip code in
  rbind (update_first rows code lots avg_cost)
        (fun o => match o with
                  | Some rows' => Ok rows'
                  | None => Ok (rows ++ [ {| h_code := code; h_lots := lots;
                                            h_avg_cost := avg_cost |} ])
                  end).

End Ledger.

(* ===================================================================== *)
(** ** Primary source: [fetch_twse_month], [fetch_twse_latest]            *)
(* ===================================================================== *)

Module Twse.
Import Py IO.

Definition fetch_twse_month (w : world) (stock_no : string)
           (target_date : Date.date) : M (option twse_month) :=
  do _u <- emit (CallTwseMonth stock_no (Date.year target_date)
                               (Date.month target_date));
  lift (twse_month_of w stock_no (Date.year target_date) (Date.month target_date)).

(** [r["date"] and r["date"] <= target_date] *)
Definition on_or_before (target_date : Date.date) (r : twse_row) : bool :=
  match r_date r with
  | Some d => Date.leb d target_date
  | None => false
  end.

(** Order of the sort keys [x["date"]]. Every row that reaches the sort
    passed [on_or_before], so both keys are dates and the [None] cases
    are never evaluated; they are filled in as a least key. *)
Definition key_leb (a b : twse_row) : bool :=
  match r_date a, r_date b with
  | Some x, Some y => Date.leb x y
  | None, _ => true
  | Some _, None => false
  end.

(** [rows.sort(key=...)] is stable; so is this insertion sort, and the
    stable sorted arrangement of a list is unique. *)
Fixpoint insert_row (x : twse_row) (l : list twse_row) : list twse_row :=
  match l with
  | [] => [x]
  | y :: l' => if key_leb x y then x :: l else y :: insert_row x l'
  end.

Definition sort_rows (l : list twse_row) : list twse_row :=
  fold_right insert_row [] l.

(** [prev_month = (target_date.replace(day=1) - timedelta(days=1)).replace(day=1)] *)
Definition prev_month (target_date : Date.date) : result Date.date :=
  rbind (Date.minus_one_day (Date.replace_day target_date 1))
        (fun d => Ok (Date.replace_day d 1)).

(** Lines 128-133, on the filtered rows of [month]. *)
Definition pick_latest (month : twse_month) (rows : list twse_row)
  : option twse_latest :=
  let rows := sort_rows rows in
  match List.rev rows with
  | [] => None
  | latest :: before =>
      Some {| t_source := "TWSE"; t_name := m_name month;
              t_latest := latest; t_prev := List.head before |}
  end.

Definition fetch_twse_latest (w : world) (stock_no : string)
           (target_date : Date.date) : M (option twse_latest) :=
  do month <- fetch_twse_month w stock_no target_date;
  match month with
  | None => ret None
  | Some month =>
      match m_rows month with
      | [] => ret None
      | _ :: _ =>
          let rows := List.filter (on_or_before target_date) (m_rows month) in
          match rows with
          | [] =>
              do prev <- lift (prev_month target_date);
              do month <- fetch_twse_month w stock_no prev;
              match month with
              | None => ret None
              | Some month =>
                  match m_rows month with
                  | [] => ret None
                  | _ :: _ =>
                      ret (pick_latest month
                             (List.filter (on_or_before target_date) (m_rows month)))
                  end
              end
          | _ :: _ => ret (pick_latest month rows)
          end
      end
  end.

End Twse.

(* ===================================================================== *)
(** ** Secondary source: the TPEx snapshot                                *)
(* ===================================================================== *)

Module Tpex.
Import Py IO.

Definition LABEL_CODE : string := "代號".
Definition LABEL_NAME : string := "名稱".
Definition LABEL_CLOSE : string := "收盤".
Definition LABEL_CHANGE : string := "漲跌".

Definition parse_float (w : world) (s : string) : option float :=
  let s := remove_commas (strip s) in
  if String.eqb s "--" || String.eqb s "-" || String.eqb s ""
  then None
  else builtin_float w s.

(** [{name: i for i, name in enumerate(header)}]: a label that occurs
    twice keeps its last position. *)
Fixpoint build_hmap (header : list string) (i : Z) (acc : gmap string Z)
  : gmap string Z :=
  match header with
  | [] => acc
  | name :: rest => build_hmap rest (i + 1) (<[name := i]> acc)
  end.

(** One turn of [for r in reader] on the pair (header, rows). *)
Definition scan_row (st : option (list string) * list (list string))
           (r : list string) : option (list string) * list (list string) :=
  match r with
  | [] => st
  | _ :: _ =>
      match fst st with
      | None => (Some r, snd st)
      | Some _ => (fst st, snd st ++ [r])
      end
  end.

Definition fetch_tpex_latest_all (w : world) : M (option tpex_table) :=
  do _u <- emit CallTpexAll;
  do reader <- lift (tpex_csv w);
  let st := fold_left scan_row reader (None, []) in
  match fst st with
  | None | Some [] => ret None
  | Some header =>
      ret (Some {| x_header := header;
                   x_hmap := build_hmap header 0 ∅;
                   x_rows := snd st |})
  end.

(** [h.get(label, -1)] *)
Definition column (h : gmap string Z) (label : string) : Z :=
  default (-1) (h !! label).

(** The [for r in data["rows"]] loop of [get_tpex_row]. *)
Fixpoint find_row (h : gmap string Z) (rows : list (list string))
         (code : string) : result (option (list string)) :=
  match rows with
  | [] => Ok None
  | r :: rest =>
      rbind (index r (column h LABEL_CODE))
            (fun cell => if String.eqb cell code then Ok (Some r)
                         else find_row h rest code)
  end.

Definition get_tpex_row (data : option tpex_table) (code : string)
  : result (option (list string)) :=
  match data with
  | None => Ok None
  | Some data => find_row (x_hmap data) (x_rows data) code
  end.

Definition parse_tpex_price (w : world) (row : list string) (hmap : gmap string Z)
  : result (option float * option float * option string) :=
  rbind (index row (column hmap LABEL_CLOSE)) (fun close_cell =>
  let close := parse_float w close_cell in
  rbind (index row (column hmap LABEL_CHANGE)) (fun change_cell =>
  let change := parse_float w change_cell in
  rbind (if 0 <=? column hmap LABEL_NAME
         then rbind (index row (column hmap LABEL_NAME)) (fun n => Ok (Some n))
         else Ok None) (fun name =>
  Ok (close, change, name)))).

End Tpex.

(* ===================================================================== *)
(** ** Portfolio aggregator: [generate_report] up to the report date      *)
(* ===================================================================== *)

Module Report.
Import Py IO Ledger.

(** The dict appended for a priced holding (lines 282-297). *)
Record priced : Type := mk_priced {
  i_code : string;
  i_name : option string;
  i_source : option string;
  i_date : option Date.date;
  i_close : float;
  i_change : option float;
  i_day_pct : option float;
  i_lots : float;
  i_avg_cost : float;
  i_market_value : float;
  i_cost : float;
  i_pnl : float;
  i_day_pnl : float;
  i_news : list news_entry
}.

(** An entry of [items]: the priced dict, or the one carrying
    ["error": "No price data"] (lines 256-261). *)
Inductive item : Type :=
| Priced (p : priced)
| NoPrice (code : string) (name : option string) (source : string).

Record totals : Type := mk_totals {
  market_value : float;
  cost : float;
  pnl : float;
  day_pnl : float
}.

(** The locals [source, name, close, change, price_date] after lines
    237-253. *)
Record quote : Type := mk_quote {
  q_source : option string;
  q_name : option string;
  q_close : option float;
  q_change : option float;
  q_price_date : option Date.date
}.

Definition no_quote : quote :=
  {| q_source := None; q_name := None; q_close := None; q_change := None;
     q_price_date := None |}.

(** The [else] branch, lines 250-253. *)
Definition secondary_quote (w : world) (tpex_all : option tpex_table)
           (code : string) : M quote :=
  do _u <- emit (CallTpexRow code);
  do row <- lift (Tpex.get_tpex_row tpex_all code);
  match row, tpex_all with
  | Some (c :: cs), Some data =>
      do res <- lift (Tpex.parse_tpex_price w (c :: cs) (x_hmap data));
      let '(close, change, name) := res in
      ret {| q_source := Some "TPEx"; q_name := name; q_close := close;
             q_change := change; q_price_date := None |}
  | _, _ => ret no_quote
  end.

(** Lines 237-253: primary first, secondary only without a primary close. *)
Definition resolve_quote (w : world) (tpex_all : option tpex_table)
           (code : string) (target_date : Date.date) : M quote :=
  do twse <- Twse.fetch_twse_latest w code target_date;
  match twse with
  | Some t =>
      match r_close (t_latest t) with
      | Some c =>
          ret {| q_source := Some "TWSE"; q_name := t_name t;
                 q_close := Some c; q_change := r_change (t_latest t);
                 q_price_date := r_date (t_latest t) |}
      | None => secondary_quote w tpex_all code
      end
  | None => secondary_quote w tpex_all code
  end.

(** Lines 264-268. *)
Definition day_pct_of (close : float) (change : option float)
  : result (option float) :=
  match change with
  | Some change =>
      let prev := fsub close change in
      if fltb fzero prev
      then rbind (truediv change prev) (fun q => Ok (Some (fmul q (of_Z 100))))
      else Ok None
  | None => Ok None
  end.

(** [source or "-"] *)
Definition source_or_dash (source : option string) : string :=
  match source with
  | Some s => if String.eqb s "" then "-" else s
  | None => "-"
  end.

(** Lines 275-278. *)
Definition add_to_totals (t : totals) (market_value' cost' pnl' day_pnl' : float)
  : totals :=
  {| market_value := fadd (market_value t) market_value';
     cost := fadd (cost t) cost';
     pnl := fadd (pnl t) pnl';
     day_pnl := fadd (day_pnl t) day_pnl' |}.

Definition fetch_google_news (w : world) (code : string) (name : option string)
  : M (list news_entry) :=
  do _u <- emit (CallNews code name);
  lift (google_news w code name).

(** The body of [for h in holdings], on the pair (items, totals). *)
Definition report_step (w : world) (tpex_all : option tpex_table)
           (target_date : Date.date) (st : list item * totals) (h : holding)
  : M (list item * totals) :=
  let code := h_code h in
  let lots := h_lots h in
  let avg_cost := h_avg_cost h in
  let shares := fmul lots (of_Z 1000) in
  do q <- resolve_quote w tpex_all code target_date;
  match q_close q with
  | None =>
      ret (fst st ++ [NoPrice code (q_name q) (source_or_dash (q_source q))],
           snd st)
  | Some close =>
      do day_pct <- lift (day_pct_of close (q_change q));
      let market_value := fmul close shares in
      let cost := fmul avg_cost shares in
      let pnl := fmul (fsub close avg_cost) shares in
      let day_pnl := fmul (or_zero (q_change q)) shares in
      let totals' := add_to_totals (snd st) market_value cost pnl day_pnl in
      do news <- fetch_google_news w code (q_name q);
      ret (fst st ++
             [Priced {| i_code := code; i_name := q_name q;
                        i_source := q_source q; i_date := q_price_date q;
                        i_close := close; i_change := q_change q;
                        i_day_pct := day_pct; i_lots := lots;
                        i_avg_cost := avg_cost; i_market_value := market_value;
                        i_cost := cost; i_pnl := pnl; i_day_pnl := day_pnl;
                        i_news := news |}],
           totals')
  end.

Fixpoint report_loop (w : world) (tpex_all : option tpex_table)
         (target_date : Date.date) (holdings : list holding)
         (st : list item * totals) : M (list item * totals) :=
  match holdings with
  | [] => ret st
  | h :: rest =>
      do st' <- report_step w tpex_all target_date st h;
      report_loop w tpex_all target_date rest st'
  end.

(** [i.get("date")] *)
Definition item_date (i : item) : option Date.date :=
  match i with
  | Priced p => i_date p
  | NoPrice _ _ _ => None
  end.

(** Lines 300-301. *)
Definition report_date_of (items : list item) (target_date : Date.date)
  : Date.date :=
  match omap item_date items with
  | [] => target_date
  | d :: ds => Date.max_from d ds
  end.

Definition zero_totals : totals :=
  {| market_value := fzero; cost := fzero; pnl := fzero; day_pnl := fzero |}.

(** What reaches the rendering part of [generate_report]. *)
Record report : Type := mk_report {
  items : list item;
  rep_totals : totals;
  report_date : Date.date
}.

(** [generate_report], from the rows [read_holdings] returned and the
    target date (yesterday) to the values rendered; [None] is the early
    [return 1] on an empty ledger. *)
Definition generate_report (w : world) (holdings : list holding)
           (target_date : Date.date) : M (option report) :=
  match holdings with
  | [] => ret None
  | _ :: _ =>
      do tpex_all <- Tpex.fetch_tpex_latest_all w;
      do st <- report_loop w tpex_all target_date holdings ([], zero_totals);
      ret (Some {| items := fst st; rep_totals := snd st;
                   report_date := report_date_of (fst st) target_date |})
  end.

End Report.

(* ===================================================================== *)
(** ** Vocabulary of the properties                                       *)
(* ===================================================================== *)

Module Props.
Import Py IO Ledger Report.

(** Left-to-right float sum from [0.0], the way [totals[...] += x]
    accumulates. *)
Definition fsum (l : list float) : float := fold_left fadd l fzero.

(** The entries of [items] that carry a price. *)
Definition priced_of (its : list item) : list priced :=
  omap (fun it => match it with Priced p => Some p | NoPrice _ _ _ => None end) its.

Definition item_code (it : item) : string :=
  match it with
  | Priced p => i_code p
  | NoPrice code _ _ => code
  end.

(** [lots * 1000], the base-unit quantity of a holding. *)
Definition shares_of (h : holding) : float := fmul (h_lots h) (of_Z 1000).

(** The rows of a month table that [fetch_twse_latest] keeps. *)
Definition usable (target_date : Date.date) (m : twse_month) : list twse_row :=
  List.filter (Twse.on_or_before target_date) (m_rows m).

(** Row [a] is dated no later than row [b]. *)
Definition key_le (a b : twse_row) : Prop := Twse.key_leb a b = true.

(** The primary source gives [code] a close on [target_date]. *)
Definition primary_close (w : world) (code : string) (target_date : Date.date)
           (t : twse_latest) (c : float) : Prop :=
  outcome (Twse.fetch_twse_latest w code target_date) = Ok (Some t)
  /\ r_close (t_latest t) = Some c.

(** The primary source gives [code] no close on [target_date]. *)
Definition primary_fails (w : world) (code : string) (target_date : Date.date)
  : Prop :=
  outcome (Twse.fetch_twse_latest w code target_date) = Ok None
  \/ exists t, outcome (Twse.fetch_twse_latest w code target_date) = Ok (Some t)
               /\ r_close (t_latest t) = None.

(** [it] is the entry the loop body appends for holding [h]. *)
Definition item_for (w : world) (tpex_all : option tpex_table)
           (target_date : Date.date) (h : holding) (it : item) : Prop :=
  exists q,
    outcome (resolve_quote w tpex_all (h_code h) target_date) = Ok q
    /\ match q_close q with
       | None => it = NoPrice (h_code h) (q_name q) (source_or_dash (q_source q))
       | Some close =>
           exists day_pct news,
             day_pct_of close (q_change q) = Ok day_pct
             /\ it = Priced
                  {| i_code := h_code h; i_name := q_name q;
                     i_source := q_source q; i_date := q_price_date q;
                     i_close := close; i_change := q_change q;
                     i_day_pct := day_pct; i_lots := h_lots h;
                     i_avg_cost := h_avg_cost h;
                     i_market_value := fmul close (shares_of h);
                     i_cost := fmul (h_avg_cost h) (shares_of h);
                     i_pnl := fmul (fsub close (h_avg_cost h)) (shares_of h);
                     i_day_pnl := fmul (or_zero (q_change q)) (shares_of h);
                     i_news := news |}
       end.

(** What appending [it] does to the running totals. *)
Definition bump (t : totals) (it : item) : totals :=
  match it with
  | Priced p =>
      add_to_totals t (i_market_value p) (i_cost p) (i_pnl p) (i_day_pnl p)
  | NoPrice _ _ _ => t
  end.

End Props.

(* ===================================================================== *)
(** ** Concrete worlds used by the examples                               *)
(* ===================================================================== *)

Module Scenario.
Import Py IO Ledger Report.

(** The binary64 value of the decimal literal [n / k], [k] a power of ten. *)
Definition dec (n k : Z) : float := fdiv (of_Z n) (of_Z k).

Definition quiet_news (code : string) (name : option string)
  : result (list news_entry) := Ok [].

Definition row (y m d : Z) (close change : option float) : twse_row :=
  {| r_date := Some (Date.mk y m d); r_close := close; r_change := change |}.

Definition february : twse_month :=
  {| m_name := None;
     m_rows := [ row 2024 2 27 (Some (of_Z 690)) (Some (of_Z 3));
                 row 2024 2 29 (Some (of_Z 697)) (Some (of_Z 7));
                 row 2024 2 26 (Some (of_Z 687)) (Some (of_Z (-2))) ] |}.

(** Around a month boundary. For 2330 the March table exists but has no
    row yet; for 2317 it holds only a row dated after the target. *)
Definition month_boundary : world :=
  {| builtin_float := float_of_decimal;
     twse_month_of := fun code y m =>
       if (y =? 2024) && (m =? 2) then Ok (Some february)
       else if String.eqb code "2330" && (y =? 2024) && (m =? 3)
       then Ok (Some {| m_name := Some "TSMC"; m_rows := [] |})
       else if String.eqb code "2317" && (y =? 2024) && (m =? 3)
       then Ok (Some {| m_name := Some "HonHai";
                        m_rows := [ row 2024 3 4 (Some (of_Z 104)) (Some (of_Z 1)) ] |})
       else Ok None;
     tpex_csv := Ok [];
     google_news := quiet_news |}.

(** Three holdings: 1101 is priced by TWSE (unchanged on the day), 6488 by
    the TPEx snapshot (change column holds the placeholder), 9999 by
    neither. *)
Definition portfolio : world :=
  {| builtin_float := float_of_decimal;
     twse_month_of := fun code y m =>
       if String.eqb code "1101" && (y =? 2024) && (m =? 3)
       then Ok (Some {| m_name := Some "TCC";
                        m_rows := [ row 2024 3 4 (Some (dec 101 10)) (Some (dec 1 10));
                                    row 2024 3 5 (Some (dec 101 10)) (Some fzero) ] |})
       else Ok None;
     tpex_csv := Ok [ [ "代號"; "名稱"; "收盤"; "漲跌" ];
                      [ "5483"; "SAS"; "150.5"; "+1.5" ];
                      [ "6488"; "GlobalWafers"; "1,234.5"; "--" ] ];
     google_news := quiet_news |}.

Definition holdings : list holding :=
  [ {| h_code := "1101"; h_lots := of_Z 1; h_avg_cost := of_Z 10 |};
    {| h_code := "6488"; h_lots := of_Z 2; h_avg_cost := of_Z 1000 |};
    {| h_code := "9999"; h_lots := of_Z 5; h_avg_cost := of_Z 20 |} ].

Definition target : Date.date := Date.mk 2024 3 5.

(** The run over [portfolio], evaluated. *)
Definition portfolio_report : report :=
  Eval vm_compute in
    match outcome (generate_report portfolio holdings target) with
    | Ok (Some rep) => rep
    | _ => {| items := []; rep_totals := zero_totals; report_date := target |}
    end.

(** The snapshot table of [portfolio]. *)
Definition portfolio_tpex : option tpex_table :=
  match outcome (Tpex.fetch_tpex_latest_all portfolio) with
  | Ok t => t
  | Raise _ => None
  end.

(** A snapshot whose header lacks the change column. *)
Definition no_change_column : world :=
  {| builtin_float := float_of_decimal;
     twse_month_of := fun _ _ _ => Ok None;
     tpex_csv := Ok [ [ "代號"; "名稱"; "收盤" ];
                      [ "6488"; "GlobalWafers"; "1234.5" ] ];
     google_news := quiet_news |}.

Definition no_change_tpex : option tpex_table :=
  match outcome (Tpex.fetch_tpex_latest_all no_change_column) with
  | Ok t => t
  | Raise _ => None
  end.

(** A snapshot whose header names the code column differently. *)
Definition no_code_column : world :=
  {| builtin_float := float_of_decimal;
     twse_month_of := fun _ _ _ => Ok None;
     tpex_csv := Ok [ [ "名稱"; "收盤"; "漲跌"; "股票代號" ];
                      [ "GlobalWafers"; "1234.5"; "+4.5"; "6488" ] ];
     google_news := quiet_news |}.

Definition no_code_tpex : option tpex_table :=
  match outcome (Tpex.fetch_tpex_latest_all no_code_column) with
  | Ok t => t
  | Raise _ => None
  end.

End Scenario.

(* ===================================================================== *)
(** ** Further vocabulary: scans, call counts, an unreachable source      *)
(* ===================================================================== *)

Module Coverage.
Import Py IO Ledger Report Props.

(** A row that [for r in reader] does not skip. *)
Definition nonempty (r : list string) : bool :=
  match r with
  | [] => false
  | _ :: _ => true
  end.

(** One pass over the rows that keeps the row with the latest date, and the
    later row of the feed when two rows carry the same date. *)
Fixpoint latest_row (rows : list twse_row) : option twse_row :=
  match rows with
  | [] => None
  | r :: rest =>
      match latest_row rest with
      | None => Some r
      | Some z => if Twse.key_leb r z then Some z else Some r
      end
  end.

Definition is_tpex_all (e : event) : bool :=
  match e with
  | CallTpexAll => true
  | _ => false
  end.

Definition is_twse_month (e : event) : bool :=
  match e with
  | CallTwseMonth _ _ _ => true
  | _ => false
  end.

(** The news requests of a trace, in order. *)
Definition news_calls (t : list event) : list (string * option string) :=
  omap (fun e => match e with
                 | CallNews code name => Some (code, name)
                 | _ => None
                 end) t.

(** The first day of the calendar month before the month of [d]. *)
Definition first_of_previous_month (d : Date.date) : Date.date :=
  if Date.month d =? 1
  then Date.mk (Date.year d - 1) 12 1
  else Date.mk (Date.year d) (Date.month d - 1) 1.

(** The example portfolio with the primary source unreachable for 6488. *)
Definition unreachable : world :=
  {| builtin_float := builtin_float Scenario.portfolio;
     twse_month_of := fun code y m =>
       if String.eqb code "6488" then Raise (TransportError "timed out")
       else twse_month_of Scenario.portfolio code y m;
     tpex_csv := tpex_csv Scenario.portfolio;
     google_news := google_news Scenario.portfolio |}.

(** A snapshot with the code in its second column and a truncated row. *)
Definition ragged : world :=
  {| builtin_float := float_of_decimal;
     twse_month_of := fun _ _ _ => Ok None;
     tpex_csv := Ok [ [ "名稱"; "代號"; "收盤"; "漲跌" ];
                      [ "SAS" ];
                      [ "GlobalWafers"; "6488"; "1,234.5"; "--" ] ];
     google_news := Scenario.quiet_news |}.

Definition ragged_table : tpex_table :=
  {| x_header := [ "名稱"; "代號"; "收盤"; "漲跌" ];
     x_hmap := Tpex.build_hmap [ "名稱"; "代號"; "收盤"; "漲跌" ] 0 ∅;
     x_rows := [ [ "SAS" ]; [ "GlobalWafers"; "6488"; "1,234.5"; "--" ] ] |}.

End Coverage.

(* ===================================================================== *)
(** ** Two more runs: tables that lag behind, and a very large holding    *)
(* ===================================================================== *)

Module Lagging.
Import Py IO Ledger Report.

(** On 2024-03-06 the table of 2002 ends on 03-04 and that of 1101 on
    03-05; 6488 comes from the snapshot, which carries no date. *)
Definition world_of : world :=
  {| builtin_float := float_of_decimal;
     twse_month_of := fun code y m =>
       if String.eqb code "2002" && (y =? 2024) && (m =? 3)
       then Ok (Some {| m_name := Some "CSC";
                        m_rows := [ Scenario.row 2024 3 1 (Some (Scenario.dec 243 10))
                                      (Some (Scenario.dec 1 10));
                                    Scenario.row 2024 3 4 (Some (Scenario.dec 245 10))
                                      (Some (Scenario.dec 2 10)) ] |})
       else twse_month_of Scenario.portfolio code y m;
     tpex_csv := tpex_csv Scenario.portfolio;
     google_news := Scenario.quiet_news |}.

Definition holdings : list holding :=
  [ {| h_code := "2002"; h_lots := of_Z 3; h_avg_cost := of_Z 25 |};
    {| h_code := "1101"; h_lots := of_Z 1; h_avg_cost := of_Z 10 |};
    {| h_code := "6488"; h_lots := of_Z 2; h_avg_cost := of_Z 1000 |} ].

Definition target : Date.date := Date.mk 2024 3 6.

Definition run : report :=
  Eval vm_compute in
    match outcome (generate_report world_of holdings target) with
    | Ok (Some rep) => rep
    | _ => {| items := []; rep_totals := zero_totals; report_date := target |}
    end.

(** What the primary source returns for 1101 and for 2002. *)
Definition latest_1101 : twse_latest :=
  {| t_source := "TWSE"; t_name := Some "TCC";
     t_latest := Scenario.row 2024 3 5 (Some (Scenario.dec 101 10)) (Some fzero);
     t_prev := Some (Scenario.row 2024 3 4 (Some (Scenario.dec 101 10))
                       (Some (Scenario.dec 1 10))) |}.

Definition latest_2002 : twse_latest :=
  {| t_source := "TWSE"; t_name := Some "CSC";
     t_latest := Scenario.row 2024 3 4 (Some (Scenario.dec 245 10))
                   (Some (Scenario.dec 2 10));
     t_prev := Some (Scenario.row 2024 3 1 (Some (Scenario.dec 243 10))
                       (Some (Scenario.dec 1 10))) |}.

(** A holding of 2^1023 lots of 6488: a finite quantity whose base-unit
    count [lots * 1000] overflows binary64. *)
Definition huge_holdings : list holding :=
  [ {| h_code := "6488"; h_lots := of_Z (2 ^ 1023); h_avg_cost := of_Z 1000 |} ].

Definition huge_run : report :=
  Eval vm_compute in
    match outcome (generate_report Scenario.portfolio huge_holdings Scenario.target) with
    | Ok (Some rep) => rep
    | _ => {| items := []; rep_totals := zero_totals; report_date := Scenario.target |}
    end.

End Lagging.

(* ===================================================================== *)
(** ** Basic facts: outcomes, traces, float comparisons                   *)
(* ===================================================================== *)

Section RuntimeFacts.
Import Py IO.

Lemma rbind_ok {A B} (r : result A) (f : A -> result B) (b : B) :
  rbind r f = Ok b -> exists a, r = Ok a /\ f a = Ok b.
Proof. destruct r as [a|e]; simpl; [eauto | discriminate]. Qed.

Lemma outcome_bind {A B} (m : M A) (f : A -> M B) :
  outcome (bind m f) = rbind (outcome m) (fun a => outcome (f a)).
Proof.
  destruct m as [t [a|e]]; simpl; [|reflexivity].
  destruct (f a); reflexivity.
Qed.

Lemma trace_bind {A B} (m : M A) (f : A -> M B) :
  trace (bind m f)
  = trace m ++ match outcome m with
               | Ok a => trace (f a)
               | Raise _ => []
               end.
Proof.
  destruct m as [t [a|e]]; simpl.
  - destruct (f a); reflexivity.
  - symmetry; apply app_nil_r.
Qed.

Lemma bind_ok {A B} (m : M A) (f : A -> M B) (b : B) :
  outcome (bind m f) = Ok b ->
  exists a, outcome m = Ok a /\ outcome (f a) = Ok b.
Proof. rewrite outcome_bind. apply rbind_ok. Qed.

Lemma outcome_lift {A} (r : result A) : outcome (lift r) = r.
Proof. reflexivity. Qed.

Lemma outcome_ret {A} (a : A) : outcome (ret a) = Ok a.
Proof. reflexivity. Qed.

(** [0 < x] excludes [x <= 0] and [x == 0]. *)
Lemma positive_not_le (x : float) :
  fltb fzero x = true -> fleb x fzero = false /\ is_zero x = false.
Proof. destruct x as [s|s| |s m e]; try destruct s; simpl; intuition discriminate. Qed.

(** [c - c] is never positive: it is [+0.0] or NaN. *)
Lemma self_difference_not_positive (c : float) : fltb fzero (fsub c c) = false.
Proof.
  destruct c as [s|s| |s m e]; [destruct s; reflexivity .. | reflexivity |].
  cbv beta iota zeta delta [fsub SFsub]. rewrite Z.sub_diag. reflexivity.
Qed.

(** [0.0 * x] for a finite [x] is a zero. *)
Lemma zero_times_finite (x : float) :
  is_finite x = true -> is_zero (fmul fzero x) = true.
Proof. destruct x as [s|s| |s m e]; simpl; intros H; try discriminate; reflexivity. Qed.

End RuntimeFacts.

(* ===================================================================== *)
(** ** Position ledger                                                    *)
(* ===================================================================== *)

Section LedgerFacts.
Import Py Ledger.

(** The loop reaches the first row carrying the code and replaces it. *)
Lemma update_first_hit (pre post : list holding) (r r' : holding)
      (code : string) (lots avg_cost : float) :
  h_code r = code ->
  (forall x, In x pre -> h_code x <> code) ->
  update_row r lots avg_cost = Ok r' ->
  update_first (pre ++ r :: post) code lots avg_cost = Ok (Some (pre ++ r' :: post)).
Proof.
  intros Hr Hpre Hupd. induction pre as [|x pre IH]; simpl.
  - rewrite (proj2 (String.eqb_eq _ _) Hr), Hupd. reflexivity.
  - assert (Hx : String.eqb (h_code x) code = false).
    { apply String.eqb_neq. apply Hpre. left; reflexivity. }
    rewrite Hx, IH; [reflexivity|].
    intros y Hy. apply Hpre. right; exact Hy.
Qed.

Lemma add_holding_hit (pre post : list holding) (r r' : holding)
      (code : string) (lots avg_cost : float) :
  h_code r = strip code ->
  (forall x, In x pre -> h_code x <> strip code) ->
  update_row r lots avg_cost = Ok r' ->
  add_holding (pre ++ r :: post) code lots avg_cost = Ok (pre ++ r' :: post).
Proof.
  intros Hr Hpre Hupd. unfold add_holding.
  rewrite (update_first_hit pre post r r' _ _ _ Hr Hpre Hupd). reflexivity.
Qed.

(** C1. When the ledger already holds a position for the symbol (its first
    row with that code) and [quantity + delta_quantity > 0], [add_holding]
    sets the position's average cost to
    [(quantity * average_cost + delta_quantity * price) / (quantity + delta_quantity)]
    and its quantity to [quantity + delta_quantity], leaving every other
    row alone. *)
Theorem add_holding_weighted_average
        (pre post : list holding) (r : holding) (code : string)
        (delta_quantity transaction_price : float) :
  h_code r = strip code ->
  (forall x, In x pre -> h_code x <> strip code) ->
  fltb fzero (fadd (h_lots r) delta_quantity) = true ->
  add_holding (pre ++ r :: post) code delta_quantity transaction_price
  = Ok (pre ++
        {| h_code := h_code r;
           h_lots := fadd (h_lots r) delta_quantity;
           h_avg_cost :=
             fdiv (fadd (fmul (h_lots r) (h_avg_cost r))
                        (fmul delta_quantity transaction_price))
                  (fadd (h_lots r) delta_quantity) |} :: post).
Proof.
  intros Hr Hpre Hpos. apply add_holding_hit; [exact Hr | exact Hpre |].
  destruct (positive_not_le _ Hpos) as [Hle Hz].
  unfold update_row, truediv. rewrite Hle, Hz. reflexivity.
Qed.

(** The scenario of C1: (+1, 130) on {AAA, 2, 100} gives quantity 3 and
    average cost 110.0. *)
Lemma add_holding_weighted_average_scenario :
  (h_code (Ledger.mk "AAA" (of_Z 2) (of_Z 100)) = strip "AAA"
   /\ (forall x, In x [] -> h_code x <> strip "AAA")
   /\ fltb fzero (fadd (of_Z 2) (of_Z 1)) = true)
  /\ add_holding [Ledger.mk "AAA" (of_Z 2) (of_Z 100)] "AAA" (of_Z 1) (of_Z 130)
     = Ok [Ledger.mk "AAA" (of_Z 3) (of_Z 110)].
Proof.
  split.
  - split; [reflexivity | split; [intros x [] | reflexivity]].
  - exact (add_holding_weighted_average [] [] (Ledger.mk "AAA" (of_Z 2) (of_Z 100))
             "AAA" (of_Z 1) (of_Z 130) eq_refl (fun x (H : In x []) => match H with end)
             eq_refl).
Defined.

(** C7. When the ledger already holds a position for the symbol and
    [quantity + delta_quantity <= 0], [add_holding] returns normally, with
    the position's quantity set to the sum and its average cost set to the
    transaction price, whatever the average cost was. *)
Theorem add_holding_rebase
        (pre post : list holding) (r : holding) (code : string)
        (delta_quantity transaction_price : float) :
  h_code r = strip code ->
  (forall x, In x pre -> h_code x <> strip code) ->
  fleb (fadd (h_lots r) delta_quantity) fzero = true ->
  add_holding (pre ++ r :: post) code delta_quantity transaction_price
  = Ok (pre ++
        {| h_code := h_code r;
           h_lots := fadd (h_lots r) delta_quantity;
           h_avg_cost := transaction_price |} :: post).
Proof.
  intros Hr Hpre Hle. apply add_holding_hit; [exact Hr | exact Hpre |].
  unfold update_row. rewrite Hle. reflexivity.
Qed.

(** C7 on a sale that crosses zero: (-3, 95) on {AAA, 2, 100}. *)
Lemma add_holding_rebase_crossing :
  (h_code (Ledger.mk "AAA" (of_Z 2) (of_Z 100)) = strip " AAA "
   /\ (forall x, In x [Ledger.mk "BBB" (of_Z 1) (of_Z 7)] -> h_code x <> strip " AAA ")
   /\ fleb (fadd (of_Z 2) (of_Z (-3))) fzero = true)
  /\ add_holding [Ledger.mk "BBB" (of_Z 1) (of_Z 7); Ledger.mk "AAA" (of_Z 2) (of_Z 100)]
                 " AAA " (of_Z (-3)) (of_Z 95)
     = Ok [Ledger.mk "BBB" (of_Z 1) (of_Z 7); Ledger.mk "AAA" (of_Z (-1)) (of_Z 95)].
Proof.
  assert (Hpre : forall x, In x [Ledger.mk "BBB" (of_Z 1) (of_Z 7)] ->
                           h_code x <> strip " AAA ").
  { intros x [<-|[]]. discriminate. }
  split.
  - split; [reflexivity | split; [exact Hpre | reflexivity]].
  - exact (add_holding_rebase [Ledger.mk "BBB" (of_Z 1) (of_Z 7)] []
             (Ledger.mk "AAA" (of_Z 2) (of_Z 100)) " AAA " (of_Z (-3)) (of_Z 95)
             eq_refl Hpre eq_refl).
Defined.

End LedgerFacts.

(* ===================================================================== *)
(** ** Primary source: the month window and its one retry                 *)
(* ===================================================================== *)

Section DateFacts.

Lemma date_leb_spec (a b : Date.date) :
  Date.leb a b = true <->
  (Date.year a < Date.year b
   \/ (Date.year a = Date.year b
       /\ (Date.month a < Date.month b
           \/ (Date.month a = Date.month b /\ Date.day a <= Date.day b)))).
Proof.
  unfold Date.leb, Date.compare.
  destruct (Z.compare_spec (Date.year a) (Date.year b));
    destruct (Z.compare_spec (Date.month a) (Date.month b));
    destruct (Z.compare_spec (Date.day a) (Date.day b));
    split; intros; try discriminate; try reflexivity; lia.
Qed.

Lemma date_ltb_spec (a b : Date.date) :
  Date.ltb a b = true <->
  (Date.year a < Date.year b
   \/ (Date.year a = Date.year b
       /\ (Date.month a < Date.month b
           \/ (Date.month a = Date.month b /\ Date.day a < Date.day b)))).
Proof.
  unfold Date.ltb, Date.compare.
  destruct (Z.compare_spec (Date.year a) (Date.year b));
    destruct (Z.compare_spec (Date.month a) (Date.month b));
    destruct (Z.compare_spec (Date.day a) (Date.day b));
    split; intros; try discriminate; try reflexivity; lia.
Qed.

Lemma date_leb_refl (a : Date.date) : Date.leb a a = true.
Proof. apply date_leb_spec. lia. Qed.

Lemma date_leb_trans (a b c : Date.date) :
  Date.leb a b = true -> Date.leb b c = true -> Date.leb a c = true.
Proof. rewrite !date_leb_spec. lia. Qed.

Lemma date_leb_total (a b : Date.date) :
  Date.leb a b = true \/ Date.leb b a = true.
Proof. rewrite !date_leb_spec. lia. Qed.

Lemma date_not_ltb_leb (a b : Date.date) :
  Date.ltb a b = false -> Date.leb b a = true.
Proof.
  intros H. apply date_leb_spec.
  destruct (Date.ltb a b) eqn:E; [discriminate|].
  assert (N : ~ (Date.ltb a b = true)) by (rewrite E; discriminate).
  rewrite date_ltb_spec in N. lia.
Qed.

Lemma date_ltb_leb (a b : Date.date) :
  Date.ltb a b = true -> Date.leb a b = true.
Proof. rewrite date_ltb_spec, date_leb_spec. lia. Qed.

End DateFacts.

Section TwseFacts.
Import Py IO Twse Props.

Lemma key_leb_refl (a : twse_row) : key_le a a.
Proof. unfold key_le, key_leb. destruct (r_date a); [apply date_leb_refl | reflexivity]. Qed.

Lemma key_leb_trans (a b c : twse_row) : key_le a b -> key_le b c -> key_le a c.
Proof.
  unfold key_le, key_leb.
  destruct (r_date a), (r_date b), (r_date c); try discriminate; try reflexivity.
  apply date_leb_trans.
Qed.

Lemma key_leb_total (a b : twse_row) : key_le a b \/ key_le b a.
Proof.
  unfold key_le, key_leb.
  destruct (r_date a), (r_date b); auto using date_leb_total.
Qed.

Lemma insert_row_In (x y : twse_row) (l : list twse_row) :
  In y (insert_row x l) <-> y = x \/ In y l.
Proof.
  induction l as [|z l IH]; simpl.
  - intuition.
  - destruct (key_leb x z); simpl; [intuition | rewrite IH; intuition].
Qed.

Lemma sort_rows_In (y : twse_row) (l : list twse_row) :
  In y (sort_rows l) <-> In y l.
Proof.
  induction l as [|x l IH]; simpl; [reflexivity|].
  rewrite insert_row_In, IH. intuition.
Qed.

Lemma insert_row_sorted (x : twse_row) (l : list twse_row) :
  StronglySorted key_le l -> StronglySorted key_le (insert_row x l).
Proof.
  induction 1 as [|z l Hs IH Hz]; simpl.
  - constructor; constructor.
  - destruct (key_leb x z) eqn:E.
    + constructor; [constructor; assumption|].
      constructor; [exact E|].
      apply List.Forall_forall. intros y Hy.
      apply key_leb_trans with z; [exact E|].
      rewrite List.Forall_forall in Hz. apply Hz, Hy.
    + constructor; [exact IH|].
      apply List.Forall_forall. intros y Hy. apply insert_row_In in Hy.
      destruct Hy as [->|Hy].
      * destruct (key_leb_total x z) as [C|C]; [unfold key_le in C; congruence | exact C].
      * rewrite List.Forall_forall in Hz. apply Hz, Hy.
Qed.

Lemma sort_rows_sorted (l : list twse_row) : StronglySorted key_le (sort_rows l).
Proof.
  induction l as [|x l IH]; simpl; [constructor | apply insert_row_sorted, IH].
Qed.

(** The last element of a sorted list bounds the list. *)
Lemma sorted_last_max (l : list twse_row) (z : twse_row) :
  StronglySorted key_le (l ++ [z]) -> forall y, In y (l ++ [z]) -> key_le y z.
Proof.
  induction l as [|a l IH]; simpl; intros Hs y Hy.
  - destruct Hy as [<-|[]]. apply key_leb_refl.
  - inversion Hs as [|? ? Hs' Ha]; subst.
    destruct Hy as [<-|Hy].
    + rewrite List.Forall_forall in Ha. apply Ha. apply in_or_app. right. left. reflexivity.
    + apply IH; assumption.
Qed.

(** [pick_latest] on a non-empty selection returns one of its rows, and no
    row of the selection has a later date. *)
Lemma pick_latest_max (month : twse_month) (rows : list twse_row) :
  rows <> [] ->
  exists res, pick_latest month rows = Some res
              /\ t_name res = m_name month
              /\ In (t_latest res) rows
              /\ forall r, In r rows -> key_le r (t_latest res).
Proof.
  intros Hne. unfold pick_latest.
  destruct (List.rev (sort_rows rows)) as [|z before] eqn:E.
  - exfalso. apply Hne.
    assert (Hs : sort_rows rows = []).
    { rewrite <- (rev_involutive (sort_rows rows)), E. reflexivity. }
    destruct rows as [|r rows]; [reflexivity|].
    assert (Hin : In r (sort_rows (r :: rows))) by (apply sort_rows_In; left; reflexivity).
    rewrite Hs in Hin. destruct Hin.
  - assert (Hs : sort_rows rows = List.rev before ++ [z]).
    { rewrite <- (rev_involutive (sort_rows rows)), E. reflexivity. }
    eexists. split; [reflexivity|]. simpl. split; [reflexivity|]. split.
    + apply sort_rows_In. rewrite Hs. apply in_or_app. right. left. reflexivity.
    + intros r Hr. apply (sorted_last_max (List.rev before) z).
      * rewrite <- Hs. apply sort_rows_sorted.
      * rewrite <- Hs. apply sort_rows_In, Hr.
Qed.

Lemma pick_latest_nil (month : twse_month) : pick_latest month [] = None.
Proof. reflexivity. Qed.

Lemma fetch_twse_month_eq (w : world) (stock_no : string) (d : Date.date) :
  fetch_twse_month w stock_no d
  = ([CallTwseMonth stock_no (Date.year d) (Date.month d)],
     twse_month_of w stock_no (Date.year d) (Date.month d)).
Proof. reflexivity. Qed.

(** A usable row carries a date, at or before the target. *)
Lemma usable_dated (target_date : Date.date) (m : twse_month) (r : twse_row) :
  In r (usable target_date m) ->
  exists d, r_date r = Some d /\ Date.leb d target_date = true.
Proof.
  unfold usable. rewrite List.filter_In. intros [_ H]. unfold on_or_before in H.
  destruct (r_date r) as [d|]; [eauto | discriminate].
Qed.

End TwseFacts.

Section MonthRetry.
Import Py IO Twse Props.

Lemma bind_ok_pair {A B} (t : list event) (a : A) (f : A -> M B) :
  bind (t, Ok a) f = (t ++ trace (f a), outcome (f a)).
Proof. simpl. destruct (f a); reflexivity. Qed.

Lemma bind_raise_pair {A B} (t : list event) (e : exn) (f : A -> M B) :
  bind (t, Raise e) f = (t, Raise e).
Proof. reflexivity. Qed.

(** The second window, once the first one had rows but none usable. *)
Lemma retry_window (w : world) (stock_no : string) (target_date pm : Date.date)
      (m : twse_month) :
  prev_month target_date = Ok pm ->
  twse_month_of w stock_no (Date.year target_date) (Date.month target_date)
  = Ok (Some m) ->
  m_rows m <> [] ->
  usable target_date m = [] ->
  fetch_twse_latest w stock_no target_date
  = ([CallTwseMonth stock_no (Date.year target_date) (Date.month target_date);
      CallTwseMonth stock_no (Date.year pm) (Date.month pm)],
     match twse_month_of w stock_no (Date.year pm) (Date.month pm) with
     | Ok (Some p) => Ok (pick_latest p (usable target_date p))
     | Ok None => Ok None
     | Raise e => Raise e
     end).
Proof.
  intros Hpm Hc Hne Hus. unfold fetch_twse_latest.
  rewrite fetch_twse_month_eq, Hc, bind_ok_pair.
  unfold usable in Hus.
  destruct (m_rows m) as [|r0 rs] eqn:Em; [contradiction|].
  rewrite Hus, Hpm. unfold lift. rewrite bind_ok_pair.
  rewrite fetch_twse_month_eq.
  destruct (twse_month_of w stock_no (Date.year pm) (Date.month pm)) as [[p|]|e];
    try reflexivity.
  rewrite bind_ok_pair. unfold usable.
  destruct (m_rows p) as [|q0 qs] eqn:Ep; reflexivity.
Qed.

(** C3, as the code has it. A month table that is missing or has no rows
    ends the resolution with [None] after that single fetch. A month table
    with rows, none of them dated on or before the target, is followed by
    exactly one more fetch, of the previous calendar month; if that table
    has rows dated on or before the target the result carries one of them
    whose date no other such row exceeds, and the result is [None] exactly
    when that table is missing or has no such row. *)
Theorem fetch_twse_latest_month_retry
        (w : world) (stock_no : string) (target_date pm : Date.date) :
  prev_month target_date = Ok pm ->
  let first := CallTwseMonth stock_no (Date.year target_date) (Date.month target_date) in
  let second := CallTwseMonth stock_no (Date.year pm) (Date.month pm) in
  let cur := twse_month_of w stock_no (Date.year target_date) (Date.month target_date) in
  let prior := twse_month_of w stock_no (Date.year pm) (Date.month pm) in
  ((cur = Ok None \/ exists m, cur = Ok (Some m) /\ m_rows m = []) ->
   fetch_twse_latest w stock_no target_date = ([first], Ok None))
  /\
  (forall m, cur = Ok (Some m) -> m_rows m <> [] -> usable target_date m = [] ->
     trace (fetch_twse_latest w stock_no target_date) = [first; second]
     /\ (forall p, prior = Ok (Some p) -> usable target_date p <> [] ->
           exists res d,
             outcome (fetch_twse_latest w stock_no target_date) = Ok (Some res)
             /\ t_name res = m_name p
             /\ In (t_latest res) (usable target_date p)
             /\ r_date (t_latest res) = Some d
             /\ Date.leb d target_date = true
             /\ forall r d', In r (usable target_date p) -> r_date r = Some d' ->
                             Date.leb d' d = true)
     /\ (outcome (fetch_twse_latest w stock_no target_date) = Ok None
         <-> (prior = Ok None
              \/ exists p, prior = Ok (Some p) /\ usable target_date p = []))).
Proof.
  intros Hpm first second cur prior. split.
  - intros [Hc | [m [Hc Hm]]]; unfold fetch_twse_latest;
      rewrite fetch_twse_month_eq; fold first; fold cur; rewrite Hc, bind_ok_pair.
    + reflexivity.
    + rewrite Hm. reflexivity.
  - intros m Hc Hne Hus.
    rewrite (retry_window w stock_no target_date pm m Hpm Hc Hne Hus).
    fold first; fold second; fold prior.
    split; [reflexivity|]. split.
    + intros p Hp Hup. rewrite Hp. unfold outcome; simpl.
      destruct (pick_latest_max p (usable target_date p) Hup)
        as (res & Hres & Hname & Hin & Hmax).
      destruct (usable_dated target_date p (t_latest res) Hin) as (d & Hd & Hle).
      exists res, d. rewrite Hres. repeat split; try assumption.
      intros r d' Hr Hd'. specialize (Hmax r Hr).
      unfold key_le, key_leb in Hmax. rewrite Hd', Hd in Hmax. exact Hmax.
    + unfold outcome; simpl. destruct prior as [[p|]|e]; simpl.
      * split.
        -- intros H. right. exists p. split; [reflexivity|].
           destruct (usable target_date p) as [|r rs] eqn:E; [reflexivity|].
           exfalso.
           destruct (pick_latest_max p (r :: rs)) as (res & Hres & _); [discriminate|].
           rewrite Hres in H. discriminate.
        -- intros [H | (p' & Hp' & Hu)]; [discriminate|].
           injection Hp' as <-. rewrite Hu. reflexivity.
      * split; [intros _; left; reflexivity | reflexivity].
      * split; [discriminate|].
        intros [H | (p' & Hp' & _)]; discriminate.
Qed.

(** The retry at work: on 2024-03-03 the March table of 2317 has only the
    row of 03-04, so February is fetched and its row of 02-29 returned. *)
Lemma fetch_twse_latest_month_retry_2317 :
  prev_month (Date.mk 2024 3 3) = Ok (Date.mk 2024 2 1)
  /\ trace (fetch_twse_latest Scenario.month_boundary "2317" (Date.mk 2024 3 3))
     = [CallTwseMonth "2317" 2024 3; CallTwseMonth "2317" 2024 2]
  /\ exists res d,
       outcome (fetch_twse_latest Scenario.month_boundary "2317" (Date.mk 2024 3 3))
       = Ok (Some res)
       /\ t_name res = None
       /\ In (t_latest res) (usable (Date.mk 2024 3 3) Scenario.february)
       /\ r_date (t_latest res) = Some d
       /\ Date.leb d (Date.mk 2024 3 3) = true
       /\ forall r d', In r (usable (Date.mk 2024 3 3) Scenario.february) ->
                       r_date r = Some d' -> Date.leb d' d = true.
Proof.
  split; [reflexivity|].
  destruct (fetch_twse_latest_month_retry Scenario.month_boundary "2317"
              (Date.mk 2024 3 3) (Date.mk 2024 2 1) eq_refl) as [_ H].
  destruct (H {| m_name := Some "HonHai";
                 m_rows := [ Scenario.row 2024 3 4 (Some (of_Z 104)) (Some (of_Z 1)) ] |}
              eq_refl ltac:(discriminate) eq_refl) as (Ht & Hres & _).
  split; [exact Ht|].
  exact (Hres Scenario.february eq_refl ltac:(discriminate)).
Defined.

(** C3 as stated fails on an empty month table. On 2024-03-01 the March
    table of 2330 has no rows and the February table has three rows dated
    before the target, yet the resolution makes one fetch and yields
    [None]. *)
Lemma fetch_twse_latest_no_retry_on_empty_month :
  twse_month_of Scenario.month_boundary "2330" 2024 3
  = Ok (Some {| m_name := Some "TSMC"; m_rows := [] |})
  /\ twse_month_of Scenario.month_boundary "2330" 2024 2 = Ok (Some Scenario.february)
  /\ usable (Date.mk 2024 3 1) Scenario.february = m_rows Scenario.february
  /\ fetch_twse_latest Scenario.month_boundary "2330" (Date.mk 2024 3 1)
     = ([CallTwseMonth "2330" 2024 3], Ok None).
Proof. repeat split. Qed.

End MonthRetry.

(* ===================================================================== *)
(** ** Portfolio aggregator: what a completed run contains                *)
(* ===================================================================== *)

Section ReportFacts.
Import Py IO Ledger Report Props.

(** Split a successful [bind] into its two successful halves. *)
Ltac bind_inv H a Ha :=
  apply bind_ok in H; destruct H as (a & Ha & H); cbv beta in H.

Lemma report_step_ok (w : world) (tpex_all : option tpex_table)
      (target_date : Date.date) (st st' : list item * totals) (h : holding) :
  outcome (report_step w tpex_all target_date st h) = Ok st' ->
  exists it, item_for w tpex_all target_date h it
             /\ fst st' = fst st ++ [it]
             /\ snd st' = bump (snd st) it.
Proof.
  unfold report_step. intros H.
  bind_inv H q Hq.
  destruct (q_close q) as [close|] eqn:Ec.
  - bind_inv H dp Hdp.
    bind_inv H news Hnews.
    rewrite outcome_ret in H. injection H as <-.
    eexists. split; [|split; reflexivity].
    exists q. split; [exact Hq|]. rewrite Ec.
    exists dp, news. split; [exact Hdp | reflexivity].
  - rewrite outcome_ret in H. injection H as <-.
    eexists. split; [|split; reflexivity].
    exists q. split; [exact Hq|]. rewrite Ec. reflexivity.
Qed.

Lemma report_loop_ok (w : world) (tpex_all : option tpex_table)
      (target_date : Date.date) (hs : list holding) :
  forall st st',
    outcome (report_loop w tpex_all target_date hs st) = Ok st' ->
    exists its, Forall2 (item_for w tpex_all target_date) hs its
                /\ fst st' = fst st ++ its
                /\ snd st' = fold_left bump its (snd st).
Proof.
  induction hs as [|h hs IH]; simpl; intros st st' H.
  - injection H as <-.
    exists []. split; [constructor | split; [symmetry; apply app_nil_r | reflexivity]].
  - bind_inv H st1 H1.
    destruct (report_step_ok _ _ _ _ _ _ H1) as (it & Hit & Hf & Hs).
    destruct (IH _ _ H) as (its & Hits & Hf' & Hs').
    exists (it :: its). split; [constructor; assumption|]. split.
    + rewrite Hf', Hf, <- app_assoc. reflexivity.
    + rewrite Hs', Hs. reflexivity.
Qed.

(** A completed run: one entry per holding, in ledger order, the totals
    accumulated over them from zero, and the date of lines 300-301. *)
Lemma generate_report_ok (w : world) (hs : list holding)
      (target_date : Date.date) (rep : report) :
  outcome (generate_report w hs target_date) = Ok (Some rep) ->
  exists tpex_all,
    outcome (Tpex.fetch_tpex_latest_all w) = Ok tpex_all
    /\ Forall2 (item_for w tpex_all target_date) hs (items rep)
    /\ rep_totals rep = fold_left bump (items rep) zero_totals
    /\ report_date rep = report_date_of (items rep) target_date.
Proof.
  unfold generate_report. destruct hs as [|h0 hs0]; [discriminate|].
  intros H. bind_inv H tpex_all Ht.
  bind_inv H st Hl.
  rewrite outcome_ret in H. injection H as <-.
  destruct (report_loop_ok _ _ _ _ _ _ Hl) as (its & Hits & Hf & Hs).
  simpl in Hf, Hs. exists tpex_all. simpl. rewrite Hf, Hs.
  repeat split; assumption.
Qed.

Lemma Forall2_pick_l {A B} (R : A -> B -> Prop) (l : list A) (l' : list B) (a : A) :
  Forall2 R l l' -> In a l -> exists b, In b l' /\ R a b.
Proof.
  induction 1 as [|x y l l' Hxy _ IH]; simpl; [intros []|].
  intros [->|Ha]; [eauto|].
  destruct (IH Ha) as (b & Hb & HR). eauto.
Qed.

Lemma Forall2_pick_r {A B} (R : A -> B -> Prop) (l : list A) (l' : list B) (b : B) :
  Forall2 R l l' -> In b l' -> exists a, In a l /\ R a b.
Proof.
  induction 1 as [|x y l l' Hxy _ IH]; simpl; [intros []|].
  intros [->|Hb]; [eauto|].
  destruct (IH Hb) as (a & Ha & HR). eauto.
Qed.

Lemma Forall2_weaken {A B} (R S : A -> B -> Prop) (l : list A) (l' : list B) :
  (forall a b, R a b -> S a b) -> Forall2 R l l' -> Forall2 S l l'.
Proof. intros HRS. induction 1; constructor; auto. Qed.

Lemma item_for_code (w : world) (tpex_all : option tpex_table)
      (target_date : Date.date) (h : holding) (it : item) :
  item_for w tpex_all target_date h it -> item_code it = h_code h.
Proof.
  intros (q & _ & H). destruct (q_close q).
  - destruct H as (dp & news & _ & ->). reflexivity.
  - subst it. reflexivity.
Qed.

(** The fields of a priced entry, read off the holding it was built for. *)
Lemma item_for_priced (w : world) (tpex_all : option tpex_table)
      (target_date : Date.date) (h : holding) (p : priced) :
  item_for w tpex_all target_date h (Priced p) ->
  i_code p = h_code h
  /\ i_lots p = h_lots h
  /\ i_avg_cost p = h_avg_cost h
  /\ i_market_value p = fmul (i_close p) (shares_of h)
  /\ i_cost p = fmul (h_avg_cost h) (shares_of h)
  /\ i_pnl p = fmul (fsub (i_close p) (h_avg_cost h)) (shares_of h)
  /\ i_day_pnl p = fmul (or_zero (i_change p)) (shares_of h)
  /\ day_pct_of (i_close p) (i_change p) = Ok (i_day_pct p).
Proof.
  intros (q & _ & H). destruct (q_close q); [|discriminate].
  destruct H as (dp & news & Hdp & H). injection H as ->. simpl.
  repeat split; try reflexivity. exact Hdp.
Qed.

(** Each total is the running float sum of its field over the priced
    entries. *)
Lemma totals_fold (its : list item) :
  forall t,
    market_value (fold_left bump its t)
    = fold_left fadd (List.map i_market_value (priced_of its)) (market_value t)
    /\ cost (fold_left bump its t)
       = fold_left fadd (List.map i_cost (priced_of its)) (cost t)
    /\ pnl (fold_left bump its t)
       = fold_left fadd (List.map i_pnl (priced_of its)) (pnl t)
    /\ day_pnl (fold_left bump its t)
       = fold_left fadd (List.map i_day_pnl (priced_of its)) (day_pnl t).
Proof.
  induction its as [|it its IH]; intros t; [repeat split|].
  destruct it as [p|code name source]; simpl; apply IH.
Qed.

End ReportFacts.

Section DayChange.
Import Py IO Ledger Report Props.

(** Lines 264-268 never raise: the division is reached only with a
    positive, hence non-zero, divisor. *)
Lemma day_pct_of_value (close : float) (change : option float) :
  day_pct_of close change
  = Ok match change with
       | Some ch =>
           if fltb fzero (fsub close ch)
           then Some (fmul (fdiv ch (fsub close ch)) (of_Z 100))
           else None
       | None => None
       end.
Proof.
  destruct change as [ch|]; simpl; [|reflexivity].
  destruct (fltb fzero (fsub close ch)) eqn:E; [|reflexivity].
  unfold truediv. rewrite (proj2 (positive_not_le _ E)). reflexivity.
Qed.

Lemma priced_entry_of_run (w : world) (hs : list holding)
      (target_date : Date.date) (rep : report) (p : priced) :
  outcome (generate_report w hs target_date) = Ok (Some rep) ->
  In (Priced p) (items rep) ->
  exists tpex_all h, In h hs /\ item_for w tpex_all target_date h (Priced p).
Proof.
  intros Hrun Hin.
  destruct (generate_report_ok _ _ _ _ Hrun) as (tpex_all & _ & Hall & _).
  destruct (Forall2_pick_r _ _ _ _ Hall Hin) as (h & Hh & Hit).
  eauto.
Qed.

(** C4, as the code has it. In a completed run a priced entry has a
    [day_pct] exactly when its change is present and [close - change] is
    strictly positive, and then it is [change / (close - change) * 100];
    a change equal to the close leaves it absent; the computation never
    raises. A change of zero does not suppress it. *)
Theorem day_pct_present_iff_positive_prior_close
        (w : world) (hs : list holding) (target_date : Date.date)
        (rep : report) (p : priced) :
  outcome (generate_report w hs target_date) = Ok (Some rep) ->
  In (Priced p) (items rep) ->
  (i_day_pct p <> None
   <-> exists ch, i_change p = Some ch /\ fltb fzero (fsub (i_close p) ch) = true)
  /\ (forall ch, i_change p = Some ch -> fltb fzero (fsub (i_close p) ch) = true ->
        i_day_pct p = Some (fmul (fdiv ch (fsub (i_close p) ch)) (of_Z 100)))
  /\ (i_change p = Some (i_close p) -> i_day_pct p = None)
  /\ (forall close change, exists dp, day_pct_of close change = Ok dp).
Proof.
  intros Hrun Hin.
  destruct (priced_entry_of_run _ _ _ _ _ Hrun Hin) as (tpex_all & h & _ & Hit).
  apply item_for_priced in Hit.
  destruct Hit as (_ & _ & _ & _ & _ & _ & _ & Hdp).
  rewrite day_pct_of_value in Hdp. injection Hdp as Hdp.
  repeat split.
  - intros Hne. destruct (i_change p) as [ch|] eqn:Ech; [|congruence].
    exists ch. split; [reflexivity|].
    destruct (fltb fzero (fsub (i_close p) ch)) eqn:Epos; [reflexivity|].
    congruence.
  - intros (ch & Hch & Hpos). rewrite Hch, Hpos in Hdp. rewrite <- Hdp. discriminate.
  - intros ch Hch Hpos. rewrite Hch, Hpos in Hdp. symmetry. exact Hdp.
  - intros Hch. rewrite Hch, self_difference_not_positive in Hdp. symmetry. exact Hdp.
  - intros close change. eexists. apply day_pct_of_value.
Qed.

(** C4 on the TWSE-priced holding of the example portfolio. *)
Lemma day_pct_present_iff_positive_prior_close_1101 :
  outcome (generate_report Scenario.portfolio Scenario.holdings Scenario.target)
  = Ok (Some Scenario.portfolio_report)
  /\ (exists p, In (Priced p) (items Scenario.portfolio_report)
                /\ i_code p = "1101"
                /\ (i_day_pct p <> None
                    <-> exists ch, i_change p = Some ch
                                   /\ fltb fzero (fsub (i_close p) ch) = true)).
Proof.
  assert (Hrun : outcome (generate_report Scenario.portfolio Scenario.holdings
                            Scenario.target)
                 = Ok (Some Scenario.portfolio_report)) by (vm_compute; reflexivity).
  split; [exact Hrun|].
  eexists. split; [left; reflexivity|]. split; [reflexivity|].
  exact (proj1 (day_pct_present_iff_positive_prior_close _ _ _ _ _ Hrun
                  (or_introl eq_refl))).
Defined.

(** C4 as stated fails on an unchanged close: holding 1101 of the example
    portfolio closed at 10.1 with a reported change of 0.0, and its entry
    carries a [day_pct] (of 0.0) although the change is zero. *)
Lemma day_pct_present_on_zero_change :
  exists p, In (Priced p) (items Scenario.portfolio_report)
            /\ outcome (generate_report Scenario.portfolio Scenario.holdings
                          Scenario.target)
               = Ok (Some Scenario.portfolio_report)
            /\ i_change p = Some fzero
            /\ i_day_pct p = Some fzero.
Proof.
  eexists. split; [left; reflexivity|].
  split; [vm_compute; reflexivity|]. split; reflexivity.
Qed.

End DayChange.

Section Valuation.
Import Py IO Ledger Report Props.

(** C5, as the code has it. In a completed run every priced entry is
    valued with the one base-unit quantity [lots * 1000] of its holding:
    [market_value = close * shares], [cost = avg_cost * shares] and
    [pnl = (close - avg_cost) * shares], each operation rounded to
    binary64. *)
Theorem valuation_uses_one_share_count
        (w : world) (hs : list holding) (target_date : Date.date) (rep : report) :
  outcome (generate_report w hs target_date) = Ok (Some rep) ->
  Forall2 (fun h it =>
             forall p, it = Priced p ->
               i_lots p = h_lots h
               /\ i_avg_cost p = h_avg_cost h
               /\ i_market_value p = fmul (i_close p) (shares_of h)
               /\ i_cost p = fmul (i_avg_cost p) (shares_of h)
               /\ i_pnl p = fmul (fsub (i_close p) (i_avg_cost p)) (shares_of h))
          hs (items rep).
Proof.
  intros Hrun.
  destruct (generate_report_ok _ _ _ _ Hrun) as (tpex_all & _ & Hall & _).
  refine (Forall2_weaken _ _ _ _ _ Hall).
  intros h it Hit p ->.
  apply item_for_priced in Hit.
  destruct Hit as (_ & Hl & Ha & Hmv & Hc & Hp & _).
  rewrite Ha. repeat split; assumption.
Qed.

(** C5 on the example portfolio. *)
Lemma valuation_uses_one_share_count_portfolio :
  outcome (generate_report Scenario.portfolio Scenario.holdings Scenario.target)
  = Ok (Some Scenario.portfolio_report)
  /\ Forall2 (fun h it =>
                forall p, it = Priced p ->
                  i_lots p = h_lots h
                  /\ i_avg_cost p = h_avg_cost h
                  /\ i_market_value p = fmul (i_close p) (shares_of h)
                  /\ i_cost p = fmul (i_avg_cost p) (shares_of h)
                  /\ i_pnl p = fmul (fsub (i_close p) (i_avg_cost p)) (shares_of h))
             Scenario.holdings (items Scenario.portfolio_report).
Proof.
  assert (Hrun : outcome (generate_report Scenario.portfolio Scenario.holdings
                            Scenario.target)
                 = Ok (Some Scenario.portfolio_report)) by (vm_compute; reflexivity).
  split; [exact Hrun|].
  exact (valuation_uses_one_share_count _ _ _ _ Hrun).
Defined.

(** C5 as stated fails in binary64: one lot of 1101 bought at 10.0 and
    closing at 10.1 has [market_value - cost = 10100.0 - 10000.0 = 100.0],
    while [pnl = (10.1 - 10.0) * 1000.0 = 99.99999999999964]. *)
Lemma pnl_differs_from_value_minus_cost :
  exists p, In (Priced p) (items Scenario.portfolio_report)
            /\ outcome (generate_report Scenario.portfolio Scenario.holdings
                          Scenario.target)
               = Ok (Some Scenario.portfolio_report)
            /\ i_lots p = of_Z 1
            /\ i_avg_cost p = of_Z 10
            /\ i_close p = Scenario.dec 101 10
            /\ fsub (i_market_value p) (i_cost p) = of_Z 100
            /\ i_pnl p = S754_finite false 7036874417766375 (-46)
            /\ feqb (i_pnl p) (fsub (i_market_value p) (i_cost p)) = false.
Proof.
  eexists. split; [left; reflexivity|].
  split; [vm_compute; reflexivity|].
  repeat split; vm_compute; reflexivity.
Qed.

End Valuation.

Section Totals.
Import Py IO Ledger Report Props.

Lemma primary_close_not_fails (w : world) (code : string) (target_date : Date.date)
      (t : twse_latest) (c : float) :
  primary_close w code target_date t c -> ~ primary_fails w code target_date.
Proof.
  intros [Ho Hc] [Hn | (t' & Ho' & Hc')]; rewrite Ho in *; [discriminate|].
  injection Ho' as <-. congruence.
Qed.


(** With a primary close the quote is the primary one. *)
Lemma resolve_quote_primary (w : world) (tpex_all : option tpex_table)
      (code : string) (target_date : Date.date) (t : twse_latest) (c : float) :
  primary_close w code target_date t c ->
  outcome (resolve_quote w tpex_all code target_date)
  = Ok {| q_source := Some "TWSE"; q_name := t_name t; q_close := Some c;
          q_change := r_change (t_latest t); q_price_date := r_date (t_latest t) |}.
Proof.
  intros [Ho Hc]. unfold resolve_quote. rewrite outcome_bind, Ho. simpl.
  rewrite Hc. reflexivity.
Qed.


Lemma item_codes (w : world) (tpex_all : option tpex_table)
      (target_date : Date.date) (hs : list holding) (its : list item) :
  Forall2 (item_for w tpex_all target_date) hs its ->
  List.map item_code its = List.map h_code hs.
Proof.
  induction 1 as [|h it hs its Hit _ IH]; simpl; [reflexivity|].
  rewrite (item_for_code _ _ _ _ _ Hit), IH. reflexivity.
Qed.




End Totals.

Section ReportDate.
Import Py IO Ledger Report Props.

(** [max] returns an element of the list that no element exceeds. *)
Lemma max_from_spec (ds : list Date.date) :
  forall d,
    In (Date.max_from d ds) (d :: ds)
    /\ forall x, In x (d :: ds) -> Date.leb x (Date.max_from d ds) = true.
Proof.
  unfold Date.max_from.
  induction ds as [|y ds IH]; intros d; simpl.
  - split; [left; reflexivity|]. intros x [<-|[]]. apply date_leb_refl.
  - destruct (IH (if Date.ltb d y then y else d)) as [Hin Hmax].
    split.
    + destruct Hin as [Hin|Hin]; [|right; right; exact Hin].
      rewrite <- Hin. destruct (Date.ltb d y); [right; left | left]; reflexivity.
    + intros x Hx.
      assert (Hd : Date.leb d (if Date.ltb d y then y else d) = true).
      { destruct (Date.ltb d y) eqn:E; [apply date_ltb_leb, E | apply date_leb_refl]. }
      assert (Hy : Date.leb y (if Date.ltb d y then y else d) = true).
      { destruct (Date.ltb d y) eqn:E; [apply date_leb_refl | apply date_not_ltb_leb, E]. }
      destruct Hx as [<-|[<-|Hx]].
      * eapply date_leb_trans; [exact Hd | apply Hmax; left; reflexivity].
      * eapply date_leb_trans; [exact Hy | apply Hmax; left; reflexivity].
      * apply Hmax. right. exact Hx.
Qed.

Lemma item_dates_In (its : list item) (d : Date.date) :
  In d (omap item_date its)
  <-> exists p, In (Priced p) its /\ i_date p = Some d.
Proof.
  induction its as [|it its IH]; simpl.
  - split; [intros [] | intros (p & [] & _)].
  - destruct it as [p|code name source]; simpl.
    + destruct (i_date p) as [d'|] eqn:E; simpl; rewrite IH.
      * split.
        -- intros [<-|(q & Hq & Hd)]; [exists p; auto | exists q; auto].
        -- intros (q & [Hq|Hq] & Hd); [|right; eauto].
           injection Hq as <-. left. congruence.
      * split.
        -- intros (q & Hq & Hd). exists q; auto.
        -- intros (q & [Hq|Hq] & Hd); [|eauto].
           injection Hq as <-. congruence.
    + rewrite IH. split.
      * intros (q & Hq & Hd). exists q; auto.
      * intros (q & [Hq|Hq] & Hd); [discriminate | eauto].
Qed.

End ReportDate.

Section AbsentChange.
Import Py IO Ledger Report Props.

(** C10, as the code has it. In a completed run a priced entry whose
    change is absent has no [day_pct], and its [day_pnl] is the float
    [0.0 * shares], never absent; that float equals 0.0 exactly when the
    holding's base-unit quantity [lots * 1000] is finite, and is NaN when
    it is not. The portfolio [day_pnl] total is the sum that includes it. *)
Theorem absent_change_gives_zero_day_pnl
        (w : world) (hs : list holding) (target_date : Date.date) (rep : report) :
  outcome (generate_report w hs target_date) = Ok (Some rep) ->
  Forall2 (fun h it =>
             forall p, it = Priced p -> i_change p = None ->
               i_day_pct p = None
               /\ i_day_pnl p = fmul fzero (shares_of h)
               /\ (feqb (i_day_pnl p) fzero = true
                   <-> is_finite (shares_of h) = true)
               /\ (is_finite (shares_of h) = false -> i_day_pnl p = S754_nan))
          hs (items rep)
  /\ day_pnl (rep_totals rep) = fsum (List.map i_day_pnl (priced_of (items rep))).
Proof.
  intros Hrun.
  destruct (generate_report_ok _ _ _ _ Hrun) as (tpex_all & _ & Hall & Htot & _).
  split.
  - refine (Forall2_weaken _ _ _ _ _ Hall).
    intros h it Hit p -> Hch.
    apply item_for_priced in Hit.
    destruct Hit as (_ & _ & _ & _ & _ & _ & Hdp & Hpct).
    rewrite Hch in Hdp, Hpct. change (or_zero None) with fzero in Hdp.
    simpl in Hpct. injection Hpct as Hpct.
    split; [symmetry; exact Hpct|]. split; [exact Hdp|].
    rewrite Hdp.
    destruct (shares_of h) as [s|s| |s m e]; simpl;
      (split; [split; intros H; first [reflexivity | discriminate H]
              | intros H; first [reflexivity | discriminate H]]).
  - rewrite Htot. apply totals_fold.
Qed.

(** C10 on the example portfolio: 6488 comes from the snapshot with the
    placeholder in its change column. *)
Lemma absent_change_gives_zero_day_pnl_6488 :
  outcome (generate_report Scenario.portfolio Scenario.holdings Scenario.target)
  = Ok (Some Scenario.portfolio_report)
  /\ exists p, nth_error (items Scenario.portfolio_report) 1 = Some (Priced p)
               /\ i_code p = "6488"
               /\ i_change p = None
               /\ i_day_pct p = None
               /\ feqb (i_day_pnl p) fzero = true.
Proof.
  assert (Hrun : outcome (generate_report Scenario.portfolio Scenario.holdings
                            Scenario.target)
                 = Ok (Some Scenario.portfolio_report)) by (vm_compute; reflexivity).
  split; [exact Hrun|].
  destruct (absent_change_gives_zero_day_pnl _ _ _ _ Hrun) as [Hall _].
  inversion Hall as [|h0 it0 hs0 its0 _ Hrest]; subst.
  inversion Hrest as [|h1 it1 hs1 its1 H1 _]; subst.
  eexists. split; [reflexivity|].
  destruct (H1 _ eq_refl eq_refl) as (Hpct & _ & Hz & _).
  split; [reflexivity|]. split; [reflexivity|]. split; [exact Hpct|].
  apply (proj2 Hz). reflexivity.
Defined.

(** C10 as stated fails on a quantity whose base-unit count overflows: for
    the finite holding of 2^1023 lots of 6488, priced by the snapshot with
    the placeholder as change, the run completes with [day_pnl] NaN (0.0
    times infinity), not 0.0, and a NaN [day_pnl] total. *)
Lemma absent_change_day_pnl_nan_on_overflow :
  exists p,
    outcome (generate_report Scenario.portfolio Lagging.huge_holdings Scenario.target)
    = Ok (Some Lagging.huge_run)
    /\ items Lagging.huge_run = [Priced p]
    /\ i_lots p = of_Z (2 ^ 1023)
    /\ is_finite (i_lots p) = true
    /\ i_change p = None
    /\ i_day_pct p = None
    /\ i_day_pnl p = S754_nan
    /\ feqb (i_day_pnl p) fzero = false
    /\ day_pnl (rep_totals Lagging.huge_run) = S754_nan.
Proof.
  eexists. split; [vm_compute; reflexivity|].
  split; [reflexivity|]. repeat split; vm_compute; reflexivity.
Qed.

End AbsentChange.

Section FallbackOrder.
Import Py IO Ledger Report Props.

Lemma in_trace_bind {A B} (m : M A) (f : A -> M B) (e : event) :
  In e (trace (bind m f)) ->
  In e (trace m) \/ exists a, outcome m = Ok a /\ In e (trace (f a)).
Proof.
  rewrite trace_bind. intros H. apply in_app_or in H.
  destruct H as [H|H]; [left; exact H|].
  destruct (outcome m) as [a|x]; [right; eauto | destruct H].
Qed.

(** Split membership in the trace of a [bind], then clean up. *)
Ltac trace_inv H a Ha :=
  apply in_trace_bind in H; destruct H as [H | (a & Ha & H)]; cbv beta in H.

(** The primary resolver only ever fetches month tables. *)
Lemma fetch_twse_latest_trace (w : world) (code : string)
      (target_date : Date.date) (e : event) :
  In e (trace (Twse.fetch_twse_latest w code target_date)) ->
  exists y m, e = CallTwseMonth code y m.
Proof.
  unfold Twse.fetch_twse_latest. intros H.
  trace_inv H month Hm.
  - destruct H as [<-|[]]. eauto.
  - destruct month as [month|]; [|destruct H].
    destruct (m_rows month); [destruct H|].
    destruct (List.filter _ _); [|destruct H].
    trace_inv H prev Hp; [destruct H|].
    trace_inv H month' Hm'.
    + destruct H as [<-|[]]. eauto.
    + destruct month' as [month'|]; [|destruct H].
      destruct (m_rows month'); destruct H.
Qed.

(** The secondary lookup records exactly the call for its symbol. *)
Lemma secondary_quote_trace (w : world) (tpex_all : option tpex_table)
      (code : string) (e : event) :
  In e (trace (secondary_quote w tpex_all code)) -> e = CallTpexRow code.
Proof.
  unfold secondary_quote. intros H.
  trace_inv H u Hu.
  - destruct H as [<-|[]]. reflexivity.
  - trace_inv H row Hrow; [destruct H|].
    destruct row as [[|c cs]|]; try destruct H.
    destruct tpex_all as [data|]; [|destruct H].
    trace_inv H res Hres; [destruct H|].
    destruct res as [[close change] name]. destruct H.
Qed.

(** A snapshot lookup for a symbol appears in the quote resolution only
    when the primary source gave that symbol no close. *)
Lemma resolve_quote_trace (w : world) (tpex_all : option tpex_table)
      (code code' : string) (target_date : Date.date) :
  In (CallTpexRow code') (trace (resolve_quote w tpex_all code target_date)) ->
  code' = code /\ primary_fails w code target_date.
Proof.
  unfold resolve_quote. intros H.
  trace_inv H twse Ht.
  - apply fetch_twse_latest_trace in H. destruct H as (y & m & H). discriminate.
  - destruct twse as [t|].
    + destruct (r_close (t_latest t)) as [c|] eqn:Ec; [destruct H|].
      apply secondary_quote_trace in H. injection H as ->.
      split; [reflexivity|]. right. eauto.
    + apply secondary_quote_trace in H. injection H as ->.
      split; [reflexivity|]. left. exact Ht.
Qed.

Lemma report_step_trace (w : world) (tpex_all : option tpex_table)
      (target_date : Date.date) (st : list item * totals) (h : holding)
      (code : string) :
  In (CallTpexRow code) (trace (report_step w tpex_all target_date st h)) ->
  primary_fails w code target_date.
Proof.
  unfold report_step. intros H.
  trace_inv H q Hq.
  - apply resolve_quote_trace in H. destruct H as [-> H]. exact H.
  - destruct (q_close q) as [close|]; [|destruct H].
    trace_inv H dp Hdp; [destruct H|].
    trace_inv H news Hnews; [|destruct H].
    unfold fetch_google_news in H.
    trace_inv H u Hu; [|destruct H].
    destruct H as [H|[]]. discriminate.
Qed.

Lemma report_loop_trace (w : world) (tpex_all : option tpex_table)
      (target_date : Date.date) (hs : list holding) (code : string) :
  forall st,
    In (CallTpexRow code) (trace (report_loop w tpex_all target_date hs st)) ->
    primary_fails w code target_date.
Proof.
  induction hs as [|h hs IH]; simpl; intros st H; [destruct H|].
  trace_inv H st' Hst.
  - eapply report_step_trace, H.
  - eapply IH, H.
Qed.

Lemma generate_report_trace (w : world) (hs : list holding)
      (target_date : Date.date) (code : string) :
  In (CallTpexRow code) (trace (generate_report w hs target_date)) ->
  primary_fails w code target_date.
Proof.
  unfold generate_report. destruct hs as [|h0 hs0]; [intros []|]. intros H.
  trace_inv H tpex_all Ht.
  - unfold Tpex.fetch_tpex_latest_all in H.
    trace_inv H u Hu; [destruct H as [H|[]]; discriminate|].
    trace_inv H reader Hr; [destruct H|].
    destruct (fst _) as [[|c cs]|]; destruct H.
  - trace_inv H st Hst; [|destruct H].
    eapply report_loop_trace, H.
Qed.

(** C2. When the primary resolution of a symbol yields a close, the quote
    resolution of lines 237-253 returns that close with source TWSE, the
    change and the trading date of the primary row, and makes no other call
    than the primary resolver's month requests. For a held symbol the run
    therefore never looks it up in the secondary snapshot, whether or not
    it completes; and in a completed run the symbol has an entry, and each
    of its entries is priced from the primary source with that close. *)
Theorem primary_close_never_consults_secondary
        (w : world) (hs : list holding) (target_date : Date.date)
        (code : string) (t : twse_latest) (c : float) :
  In code (List.map h_code hs) ->
  primary_close w code target_date t c ->
  (forall tpex_all,
     resolve_quote w tpex_all code target_date
     = (trace (Twse.fetch_twse_latest w code target_date),
        Ok {| q_source := Some "TWSE"; q_name := t_name t; q_close := Some c;
              q_change := r_change (t_latest t);
              q_price_date := r_date (t_latest t) |}))
  /\ (forall e, In e (trace (Twse.fetch_twse_latest w code target_date)) ->
        exists y m, e = CallTwseMonth code y m)
  /\ ~ In (CallTpexRow code) (trace (generate_report w hs target_date))
  /\ forall rep,
       outcome (generate_report w hs target_date) = Ok (Some rep) ->
       (exists it, In it (items rep) /\ item_code it = code)
       /\ forall it, In it (items rep) -> item_code it = code ->
            exists p, it = Priced p
                      /\ i_source p = Some "TWSE"
                      /\ i_close p = c
                      /\ i_change p = r_change (t_latest t)
                      /\ i_date p = r_date (t_latest t).
Proof.
  intros Hheld Hprim. split; [|split; [|split]].
  - intros tpex_all. destruct Hprim as [Ho Hc]. unfold resolve_quote.
    destruct (Twse.fetch_twse_latest w code target_date) as [tr r] eqn:E.
    unfold outcome in Ho. simpl in Ho. subst r.
    rewrite bind_ok_pair, Hc. unfold trace, outcome, ret. simpl.
    rewrite app_nil_r. reflexivity.
  - intros e He. exact (fetch_twse_latest_trace _ _ _ _ He).
  - intros H. apply generate_report_trace in H.
    exact (primary_close_not_fails _ _ _ _ _ Hprim H).
  - intros rep Hrun.
    destruct (generate_report_ok _ _ _ _ Hrun) as (tpex_all & _ & Hall & _).
    split.
    + rewrite <- (item_codes _ _ _ _ _ Hall) in Hheld.
      apply in_map_iff in Hheld. destruct Hheld as (it & Hc & Hin). eauto.
    + intros it Hin Hcode.
      destruct (Forall2_pick_r _ _ _ _ Hall Hin) as (h & _ & Hit).
      pose proof (item_for_code _ _ _ _ _ Hit) as Hc.
      destruct Hit as (q & Hq & Hit).
      assert (Hh : h_code h = code) by congruence.
      rewrite Hh, (resolve_quote_primary _ tpex_all _ _ _ _ Hprim) in Hq.
      injection Hq as <-. simpl in Hit.
      destruct Hit as (dp & news & _ & ->).
      eexists. split; [reflexivity|]. repeat split.
Qed.

(** C2 on the example portfolio: 1101 has a primary close of 10.1; the run
    completes, its trace holds no snapshot lookup for 1101 (it holds those
    for 6488 and 9999), and the entry of 1101 is priced from TWSE at 10.1
    with the change and date of the row of 03-05. *)
Lemma primary_close_never_consults_secondary_1101 :
  (In "1101" (List.map h_code Scenario.holdings)
   /\ primary_close Scenario.portfolio "1101" Scenario.target Lagging.latest_1101
        (Scenario.dec 101 10))
  /\ outcome (generate_report Scenario.portfolio Scenario.holdings Scenario.target)
     = Ok (Some Scenario.portfolio_report)
  /\ trace (generate_report Scenario.portfolio Scenario.holdings Scenario.target)
     = [CallTpexAll; CallTwseMonth "1101" 2024 3; CallNews "1101" (Some "TCC");
        CallTwseMonth "6488" 2024 3; CallTpexRow "6488";
        CallNews "6488" (Some "GlobalWafers");
        CallTwseMonth "9999" 2024 3; CallTpexRow "9999"]
  /\ ~ In (CallTpexRow "1101")
          (trace (generate_report Scenario.portfolio Scenario.holdings Scenario.target))
  /\ resolve_quote Scenario.portfolio Scenario.portfolio_tpex "1101" Scenario.target
     = ([CallTwseMonth "1101" 2024 3],
        Ok {| q_source := Some "TWSE"; q_name := Some "TCC";
              q_close := Some (Scenario.dec 101 10); q_change := Some fzero;
              q_price_date := Some (Date.mk 2024 3 5) |})
  /\ exists p, nth_error (items Scenario.portfolio_report) 0 = Some (Priced p)
               /\ i_code p = "1101"
               /\ i_source p = Some "TWSE"
               /\ i_close p = Scenario.dec 101 10
               /\ i_change p = Some fzero
               /\ i_date p = Some (Date.mk 2024 3 5).
Proof.
  assert (Hheld : In "1101" (List.map h_code Scenario.holdings))
    by (left; reflexivity).
  assert (Hprim : primary_close Scenario.portfolio "1101" Scenario.target
                    Lagging.latest_1101 (Scenario.dec 101 10))
    by (split; reflexivity).
  assert (Hrun : outcome (generate_report Scenario.portfolio Scenario.holdings
                            Scenario.target)
                 = Ok (Some Scenario.portfolio_report)) by (vm_compute; reflexivity).
  destruct (primary_close_never_consults_secondary _ _ _ _ _ _ Hheld Hprim)
    as (Hq & _ & Hno & Hrep).
  destruct (Hrep _ Hrun) as [_ Hentries].
  split; [split; [exact Hheld | exact Hprim]|].
  split; [exact Hrun|]. split; [vm_compute; reflexivity|]. split; [exact Hno|].
  split; [exact (Hq Scenario.portfolio_tpex)|].
  destruct (Hentries (List.hd (NoPrice "" None "") (items Scenario.portfolio_report)))
    as (p & Hp & Hsrc & Hclose & Hchange & Hdate);
    [left; reflexivity | reflexivity |].
  unfold Scenario.portfolio_report in Hp. simpl in Hp. injection Hp as <-.
  eexists. split; [reflexivity|]. split; [reflexivity|].
  repeat split; assumption.
Defined.

End FallbackOrder.

Section MissingLabel.
Import Py IO Ledger Report Props.

(** The name column is guarded: without its label the name is absent. *)
Lemma parse_tpex_price_name_guard (w : world) (row : list string)
      (hmap : gmap string Z) (close change : option float) (name : option string) :
  hmap !! Tpex.LABEL_NAME = None ->
  Tpex.parse_tpex_price w row hmap = Ok (close, change, name) ->
  name = None.
Proof.
  intros Hn. unfold Tpex.parse_tpex_price, Tpex.column at 3. rewrite Hn. simpl.
  intros H.
  apply rbind_ok in H. destruct H as (c1 & _ & H).
  apply rbind_ok in H. destruct H as (c2 & _ & H).
  simpl in H. congruence.
Qed.

(** C8 at the failing inputs. With no change label in the header, the
    change of 6488 is read from the last column, here the close, instead
    of being absent; with the code column under another label, the row is
    found through its last column instead of not at all. *)
Theorem missing_label_reads_last_column :
  Scenario.no_change_tpex
  = Some {| x_header := [ "代號"; "名稱"; "收盤" ];
            x_hmap := Tpex.build_hmap [ "代號"; "名稱"; "收盤" ] 0 ∅;
            x_rows := [ [ "6488"; "GlobalWafers"; "1234.5" ] ] |}
  /\ outcome (secondary_quote Scenario.no_change_column Scenario.no_change_tpex "6488")
     = Ok {| q_source := Some "TPEx"; q_name := Some "GlobalWafers";
             q_close := Some (Scenario.dec 12345 10);
             q_change := Some (Scenario.dec 12345 10);
             q_price_date := None |}
  /\ Tpex.get_tpex_row Scenario.no_code_tpex "6488"
     = Ok (Some [ "GlobalWafers"; "1234.5"; "+4.5"; "6488" ]).
Proof. repeat split; vm_compute; reflexivity. Qed.

End MissingLabel.

(* ===================================================================== *)
(** ** Position ledger, beyond the update of an existing position         *)
(* ===================================================================== *)

Section LedgerCoverage.
Import Py Ledger.

(** The update of a row never divides by zero, and keeps the row's code. *)
Lemma update_row_ok (r : holding) (lots avg_cost : float) :
  exists r', update_row r lots avg_cost = Ok r' /\ h_code r' = h_code r.
Proof.
  unfold update_row, truediv.
  destruct (fleb (fadd (h_lots r) lots) fzero) eqn:Hle; [eauto|].
  destruct (is_zero (fadd (h_lots r) lots)) eqn:Hz.
  - destruct (fadd (h_lots r) lots); discriminate.
  - simpl. eauto.
Qed.

Lemma update_first_miss (rows : list holding) (code : string) (lots avg_cost : float) :
  (forall x, In x rows -> h_code x <> code) ->
  update_first rows code lots avg_cost = Ok None.
Proof.
  induction rows as [|x rows IH]; simpl; intros H; [reflexivity|].
  assert (Hx : String.eqb (h_code x) code = false).
  { apply String.eqb_neq. apply H. left; reflexivity. }
  rewrite Hx, IH; [reflexivity|].
  intros y Hy. apply H. right; exact Hy.
Qed.

(** The loop never raises; it leaves the codes as they are, and reports a
    miss exactly when no row carries the code. *)
Lemma update_first_codes (rows : list holding) (code : string) (lots avg_cost : float) :
  (In code (List.map h_code rows)
   /\ exists rows', update_first rows code lots avg_cost = Ok (Some rows')
                    /\ List.map h_code rows' = List.map h_code rows)
  \/ (~ In code (List.map h_code rows)
      /\ update_first rows code lots avg_cost = Ok None).
Proof.
  induction rows as [|x rows IH]; simpl.
  - right. split; [intros [] | reflexivity].
  - destruct (String.eqb (h_code x) code) eqn:E.
    + left. apply String.eqb_eq in E. split; [left; exact E|].
      destruct (update_row_ok x lots avg_cost) as (r' & -> & Hc).
      simpl. eexists. split; [reflexivity|]. simpl. rewrite Hc. reflexivity.
    + apply String.eqb_neq in E.
      destruct IH as [(Hin & rows' & -> & Hc) | (Hnin & ->)].
      * left. split; [right; exact Hin|].
        simpl. eexists. split; [reflexivity|]. simpl. rewrite Hc. reflexivity.
      * right. split; [|reflexivity]. intros [H|H]; [exact (E H) | exact (Hnin H)].
Qed.

Lemma add_holding_codes (rows : list holding) (code : string) (lots avg_cost : float) :
  exists rows',
    add_holding rows code lots avg_cost = Ok rows'
    /\ ((In (strip code) (List.map h_code rows)
         /\ List.map h_code rows' = List.map h_code rows)
        \/ (~ In (strip code) (List.map h_code rows)
            /\ rows' = rows ++ [ {| h_code := strip code; h_lots := lots;
                                    h_avg_cost := avg_cost |} ])).
Proof.
  unfold add_holding.
  destruct (update_first_codes rows (strip code) lots avg_cost)
    as [(Hin & rows' & -> & Hc) | (Hnin & ->)]; simpl; eauto.
Qed.

(** X1. A symbol the ledger does not hold yet is appended as a new last
    row, under its stripped code, with the given quantity and price; the
    rows already there are untouched. *)
Theorem add_holding_new_symbol
        (rows : list holding) (code : string) (lots avg_cost : float) :
  (forall x, In x rows -> h_code x <> strip code) ->
  add_holding rows code lots avg_cost
  = Ok (rows ++ [ {| h_code := strip code; h_lots := lots; h_avg_cost := avg_cost |} ]).
Proof.
  intros H. unfold add_holding. rewrite update_first_miss by exact H. reflexivity.
Qed.

(** X1 on a ledger holding AAA: buying " 2330 " adds the row 2330. *)
Lemma add_holding_new_symbol_2330 :
  (forall x, In x [Ledger.mk "AAA" (of_Z 2) (of_Z 100)] -> h_code x <> strip " 2330 ")
  /\ add_holding [Ledger.mk "AAA" (of_Z 2) (of_Z 100)] " 2330 " (of_Z 2) (Scenario.dec 5805 10)
     = Ok [Ledger.mk "AAA" (of_Z 2) (of_Z 100);
           Ledger.mk "2330" (of_Z 2) (Scenario.dec 5805 10)].
Proof.
  assert (H : forall x, In x [Ledger.mk "AAA" (of_Z 2) (of_Z 100)] ->
                        h_code x <> strip " 2330 ").
  { intros x [<-|[]]. discriminate. }
  split; [exact H|].
  exact (add_holding_new_symbol _ " 2330 " (of_Z 2) (Scenario.dec 5805 10) H).
Defined.

(** X2. [add_holding] never raises, whatever the floats (a zero or NaN
    sum included: the division is only reached with a non-zero divisor),
    and it changes the codes of the ledger only by appending the stripped
    code when no row carries it. *)
Theorem add_holding_never_raises
        (rows : list holding) (code : string) (lots avg_cost : float) :
  exists rows',
    add_holding rows code lots avg_cost = Ok rows'
    /\ List.map h_code rows'
       = if existsb (String.eqb (strip code)) (List.map h_code rows)
         then List.map h_code rows
         else List.map h_code rows ++ [strip code].
Proof.
  destruct (add_holding_codes rows code lots avg_cost)
    as (rows' & Hr & [(Hin & Hc) | (Hnin & Heq)]);
    exists rows'; (split; [exact Hr|]).
  - assert (E : existsb (String.eqb (strip code)) (List.map h_code rows) = true).
    { apply existsb_exists. exists (strip code). split; [exact Hin | apply String.eqb_refl]. }
    rewrite E. exact Hc.
  - assert (E : existsb (String.eqb (strip code)) (List.map h_code rows) = false).
    { destruct (existsb _ _) eqn:E; [|reflexivity].
      apply existsb_exists in E. destruct E as (c & Hc & Hcc).
      apply String.eqb_eq in Hcc. subst c. contradiction. }
    rewrite E, Heq, List.map_app. reflexivity.
Qed.

(** X3. A ledger with one row per code keeps one row per code. *)
Theorem add_holding_keeps_codes_distinct
        (rows rows' : list holding) (code : string) (lots avg_cost : float) :
  List.NoDup (List.map h_code rows) ->
  add_holding rows code lots avg_cost = Ok rows' ->
  List.NoDup (List.map h_code rows').
Proof.
  intros Hnd Hadd.
  destruct (add_holding_codes rows code lots avg_cost)
    as (rows'' & Hr & [(Hin & Hc) | (Hnin & Heq)]);
    rewrite Hadd in Hr; injection Hr as <-.
  - rewrite Hc. exact Hnd.
  - rewrite Heq, List.map_app. simpl.
    apply List.NoDup_app; [exact Hnd | repeat constructor; intros [] |].
    intros c Hc [<-|[]]. exact (Hnin Hc).
Qed.

(** X3 on two purchases in a row: the second one of 2330 updates its row. *)
Lemma add_holding_keeps_codes_distinct_twice :
  (List.NoDup (List.map h_code [Ledger.mk "AAA" (of_Z 2) (of_Z 100);
                                Ledger.mk "2330" (of_Z 2) (of_Z 580)])
   /\ add_holding [Ledger.mk "AAA" (of_Z 2) (of_Z 100);
                   Ledger.mk "2330" (of_Z 2) (of_Z 580)] "2330" (of_Z 2) (of_Z 600)
      = Ok [Ledger.mk "AAA" (of_Z 2) (of_Z 100); Ledger.mk "2330" (of_Z 4) (of_Z 590)])
  /\ List.NoDup (List.map h_code [Ledger.mk "AAA" (of_Z 2) (of_Z 100);
                                  Ledger.mk "2330" (of_Z 4) (of_Z 590)]).
Proof.
  assert (Hnd : List.NoDup (List.map h_code [Ledger.mk "AAA" (of_Z 2) (of_Z 100);
                                             Ledger.mk "2330" (of_Z 2) (of_Z 580)])).
  { repeat constructor; simpl; intuition discriminate. }
  assert (Hadd : add_holding [Ledger.mk "AAA" (of_Z 2) (of_Z 100);
                              Ledger.mk "2330" (of_Z 2) (of_Z 580)]
                             "2330" (of_Z 2) (of_Z 600)
                 = Ok [Ledger.mk "AAA" (of_Z 2) (of_Z 100);
                       Ledger.mk "2330" (of_Z 4) (of_Z 590)])
    by (vm_compute; reflexivity).
  split; [split; assumption|].
  exact (add_holding_keeps_codes_distinct _ _ _ _ _ Hnd Hadd).
Defined.

End LedgerCoverage.

(* ===================================================================== *)
(** ** Primary source, beyond the retry                                   *)
(* ===================================================================== *)

Section TwseCoverage.
Import Py IO Twse Props Coverage.

Lemma head_rev_cons {A} (a : A) (l : list A) :
  List.head (List.rev (a :: l))
  = match List.head (List.rev l) with
    | None => Some a
    | Some z => Some z
    end.
Proof. simpl. destruct (List.rev l); reflexivity. Qed.

(** Inserting [x] changes the last row only when no row is dated on or
    after [x]. *)
Lemma insert_row_last (x : twse_row) (s : list twse_row) :
  List.head (List.rev (insert_row x s))
  = match List.head (List.rev s) with
    | None => Some x
    | Some z => if existsb (key_leb x) s then Some z else Some x
    end.
Proof.
  induction s as [|y s IH]; [reflexivity|].
  cbn [insert_row existsb].
  destruct (key_leb x y) eqn:E; cbn [orb].
  - rewrite head_rev_cons. destruct (List.head (List.rev (y :: s))) eqn:H; [reflexivity|].
    rewrite head_rev_cons in H. destruct (List.head (List.rev s)); discriminate.
  - rewrite head_rev_cons, IH, head_rev_cons.
    destruct (List.head (List.rev s)) as [z|] eqn:H.
    + destruct (existsb (key_leb x) s); reflexivity.
    + destruct s as [|y' s']; [reflexivity|].
      rewrite head_rev_cons in H. destruct (List.head (List.rev s')); discriminate.
Qed.

Lemma head_rev_In {A} (l : list A) (z : A) :
  List.head (List.rev l) = Some z -> exists l', l = l' ++ [z].
Proof.
  intros H. destruct (List.rev l) as [|z' before] eqn:E; [discriminate|].
  injection H as ->. exists (List.rev before).
  rewrite <- (rev_involutive l), E. reflexivity.
Qed.

(** In a sorted list, some row is dated on or after [x] exactly when the
    last one is. *)
Lemma sorted_exists_last (x z : twse_row) (s : list twse_row) :
  StronglySorted key_le s ->
  List.head (List.rev s) = Some z ->
  existsb (key_leb x) s = key_leb x z.
Proof.
  intros Hs Hz. destruct (head_rev_In _ _ Hz) as (s' & ->).
  destruct (key_leb x z) eqn:E.
  - apply existsb_exists. exists z. split; [|exact E].
    apply in_or_app. right. left. reflexivity.
  - destruct (existsb (key_leb x) (s' ++ [z])) eqn:Ex; [|reflexivity].
    apply existsb_exists in Ex. destruct Ex as (y & Hy & Hxy).
    pose proof (sorted_last_max s' z Hs y Hy) as Hyz.
    pose proof (key_leb_trans x y z Hxy Hyz) as Hxz.
    unfold key_le in Hxz. congruence.
Qed.

Lemma sort_rows_last (rows : list twse_row) :
  List.head (List.rev (sort_rows rows)) = latest_row rows.
Proof.
  induction rows as [|r rows IH]; [reflexivity|].
  cbn [sort_rows fold_right latest_row]. fold (sort_rows rows).
  rewrite insert_row_last, <- IH.
  destruct (List.head (List.rev (sort_rows rows))) as [z|] eqn:H; [|reflexivity].
  rewrite (sorted_exists_last r z _ (sort_rows_sorted rows) H). reflexivity.
Qed.

(** X4. Sorting by date and taking the last row selects what one pass
    over the feed would keep: the row with the latest date and, among rows
    of that date, the one that comes last in the feed. *)
Theorem pick_latest_is_last_maximum (month : twse_month) (rows : list twse_row) :
  option_map t_latest (pick_latest month rows) = latest_row rows.
Proof.
  rewrite <- sort_rows_last. unfold pick_latest.
  destruct (List.rev (sort_rows rows)); reflexivity.
Qed.

Lemma sorted_last_two (l : list twse_row) (p z : twse_row) :
  StronglySorted key_le (l ++ [p; z]) -> key_le p z.
Proof.
  induction l as [|a l IH]; simpl; intros Hs.
  - inversion Hs as [|? ? _ Ha]; subst. inversion Ha; assumption.
  - inversion Hs; subst. apply IH. assumption.
Qed.

(** What a successful [pick_latest] holds. *)
Lemma pick_latest_inv (month : twse_month) (rows : list twse_row) (res : twse_latest) :
  pick_latest month rows = Some res ->
  t_source res = "TWSE"
  /\ t_name res = m_name month
  /\ In (t_latest res) rows
  /\ (forall r, In r rows -> key_le r (t_latest res))
  /\ (forall p, t_prev res = Some p -> In p rows /\ key_le p (t_latest res)).
Proof.
  unfold pick_latest. intros H.
  destruct (List.rev (sort_rows rows)) as [|z before] eqn:E; [discriminate|].
  injection H as <-. simpl.
  assert (Hs : sort_rows rows = List.rev before ++ [z]).
  { rewrite <- (rev_involutive (sort_rows rows)), E. reflexivity. }
  pose proof (sort_rows_sorted rows) as Hsorted. rewrite Hs in Hsorted.
  split; [reflexivity|]. split; [reflexivity|]. split; [|split].
  - apply sort_rows_In. rewrite Hs. apply in_or_app. right. left. reflexivity.
  - intros r Hr. apply (sorted_last_max (List.rev before) z Hsorted).
    rewrite <- Hs. apply sort_rows_In, Hr.
  - intros p Hp. destruct before as [|p' before']; [discriminate|].
    injection Hp as ->. split.
    + apply sort_rows_In. rewrite Hs. simpl. apply in_or_app. left.
      apply in_or_app. right. left. reflexivity.
    + simpl in Hsorted. rewrite <- app_assoc in Hsorted.
      exact (sorted_last_two _ _ _ Hsorted).
Qed.

(** The first window, when it has a usable row. *)
Lemma first_window (w : world) (stock_no : string) (target_date : Date.date)
      (m : twse_month) :
  twse_month_of w stock_no (Date.year target_date) (Date.month target_date)
  = Ok (Some m) ->
  usable target_date m <> [] ->
  fetch_twse_latest w stock_no target_date
  = ([CallTwseMonth stock_no (Date.year target_date) (Date.month target_date)],
     Ok (pick_latest m (usable target_date m))).
Proof.
  intros Hc Hus. unfold fetch_twse_latest.
  rewrite fetch_twse_month_eq, Hc, bind_ok_pair.
  unfold usable in *.
  destruct (m_rows m) as [|r0 rs] eqn:Em; [contradiction Hus; reflexivity|].
  destruct (List.filter (on_or_before target_date) (r0 :: rs)) as [|u us] eqn:Ef;
    [contradiction Hus; reflexivity|].
  reflexivity.
Qed.

(** Every result of the resolver is picked from the usable rows of one
    month table. *)
Lemma fetch_twse_latest_inv (w : world) (stock_no : string)
      (target_date : Date.date) (res : twse_latest) :
  outcome (fetch_twse_latest w stock_no target_date) = Ok (Some res) ->
  exists m, pick_latest m (usable target_date m) = Some res.
Proof.
  unfold fetch_twse_latest. intros H.
  apply bind_ok in H. destruct H as (month & _ & H). cbv beta in H.
  destruct month as [month|]; [|discriminate].
  destruct (m_rows month) as [|r0 rs] eqn:Em; [discriminate|].
  destruct (List.filter (on_or_before target_date) (r0 :: rs)) as [|u us] eqn:Ef.
  - apply bind_ok in H. destruct H as (prev & _ & H). cbv beta in H.
    apply bind_ok in H. destruct H as (month' & _ & H). cbv beta in H.
    destruct month' as [month'|]; [|discriminate].
    destruct (m_rows month') as [|q0 qs] eqn:Em'; [discriminate|].
    rewrite outcome_ret in H. injection H as H.
    exists month'. unfold usable. rewrite Em'. exact H.
  - rewrite outcome_ret in H. injection H as H.
    exists month. unfold usable. rewrite Em, Ef. exact H.
Qed.

(** X5. When the month table of the target date has a row dated on or
    before the target, the resolver makes that one fetch and returns, under
    the table's name, a row of it dated on or before the target whose date
    no other such row exceeds. *)
Theorem fetch_twse_latest_current_month
        (w : world) (stock_no : string) (target_date : Date.date) (m : twse_month) :
  twse_month_of w stock_no (Date.year target_date) (Date.month target_date)
  = Ok (Some m) ->
  usable target_date m <> [] ->
  trace (fetch_twse_latest w stock_no target_date)
  = [CallTwseMonth stock_no (Date.year target_date) (Date.month target_date)]
  /\ exists res d,
       outcome (fetch_twse_latest w stock_no target_date) = Ok (Some res)
       /\ t_name res = m_name m
       /\ In (t_latest res) (m_rows m)
       /\ r_date (t_latest res) = Some d
       /\ Date.leb d target_date = true
       /\ forall r d', In r (m_rows m) -> r_date r = Some d' ->
                       Date.leb d' target_date = true -> Date.leb d' d = true.
Proof.
  intros Hc Hus. rewrite (first_window _ _ _ _ Hc Hus).
  split; [reflexivity|].
  destruct (pick_latest_max m (usable target_date m) Hus)
    as (res & Hres & Hname & Hin & Hmax).
  destruct (usable_dated target_date m (t_latest res) Hin) as (d & Hd & Hle).
  exists res, d. unfold outcome; simpl. rewrite Hres.
  split; [reflexivity|]. split; [exact Hname|]. split.
  { unfold usable in Hin. apply List.filter_In in Hin. apply Hin. }
  split; [exact Hd|]. split; [exact Hle|].
  intros r d' Hr Hd' Hle'.
  assert (Hu : In r (usable target_date m)).
  { unfold usable. apply List.filter_In. split; [exact Hr|].
    unfold on_or_before. rewrite Hd'. exact Hle'. }
  specialize (Hmax r Hu). unfold key_le, key_leb in Hmax.
  rewrite Hd', Hd in Hmax. exact Hmax.
Qed.

(** X5 on 1101 of the example portfolio: of the rows of 03-04 and 03-05
    the one of 03-05 is returned. *)
Lemma fetch_twse_latest_current_month_1101 :
  (exists m, twse_month_of Scenario.portfolio "1101" 2024 3 = Ok (Some m)
             /\ usable Scenario.target m <> [])
  /\ trace (fetch_twse_latest Scenario.portfolio "1101" Scenario.target)
     = [CallTwseMonth "1101" 2024 3]
  /\ exists res,
       outcome (fetch_twse_latest Scenario.portfolio "1101" Scenario.target)
       = Ok (Some res)
       /\ r_date (t_latest res) = Some (Date.mk 2024 3 5).
Proof.
  assert (Hc : twse_month_of Scenario.portfolio "1101"
                 (Date.year Scenario.target) (Date.month Scenario.target)
               = Ok (Some {| m_name := Some "TCC";
                             m_rows := [ Scenario.row 2024 3 4
                                           (Some (Scenario.dec 101 10))
                                           (Some (Scenario.dec 1 10));
                                         Scenario.row 2024 3 5
                                           (Some (Scenario.dec 101 10))
                                           (Some fzero) ] |}))
    by reflexivity.
  assert (Hus : usable Scenario.target
                  {| m_name := Some "TCC";
                     m_rows := [ Scenario.row 2024 3 4 (Some (Scenario.dec 101 10))
                                   (Some (Scenario.dec 1 10));
                                 Scenario.row 2024 3 5 (Some (Scenario.dec 101 10))
                                   (Some fzero) ] |} <> []) by discriminate.
  split; [eexists; split; [exact Hc | exact Hus]|].
  destruct (fetch_twse_latest_current_month _ _ _ _ Hc Hus) as [Ht _].
  split; [exact Ht|].
  eexists. split; reflexivity.
Defined.

(** X6. Whatever the source returns, a result of the resolver is tagged
    TWSE, its latest row carries a date on or before the target date, and
    its previous row, when there is one, carries a date on or before that
    of the latest row. *)
Theorem fetch_twse_latest_never_after_target
        (w : world) (stock_no : string) (target_date : Date.date) (res : twse_latest) :
  outcome (fetch_twse_latest w stock_no target_date) = Ok (Some res) ->
  t_source res = "TWSE"
  /\ exists d,
       r_date (t_latest res) = Some d
       /\ Date.leb d target_date = true
       /\ forall p, t_prev res = Some p ->
            exists d', r_date p = Some d' /\ Date.leb d' d = true.
Proof.
  intros H. destruct (fetch_twse_latest_inv _ _ _ _ H) as (m & Hm).
  destruct (pick_latest_inv _ _ _ Hm) as (Hsrc & _ & Hin & _ & Hprev).
  split; [exact Hsrc|].
  destruct (usable_dated _ _ _ Hin) as (d & Hd & Hle).
  exists d. split; [exact Hd|]. split; [exact Hle|].
  intros p Hp. destruct (Hprev p Hp) as [Hpin Hpl].
  destruct (usable_dated _ _ _ Hpin) as (d' & Hd' & _).
  exists d'. split; [exact Hd'|].
  unfold key_le, key_leb in Hpl. rewrite Hd', Hd in Hpl. exact Hpl.
Qed.

(** X6 on the retry of 2317: latest row of 02-29, previous row of 02-27. *)
Lemma fetch_twse_latest_never_after_target_2317 :
  exists res,
    outcome (fetch_twse_latest Scenario.month_boundary "2317" (Date.mk 2024 3 3))
    = Ok (Some res)
    /\ r_date (t_latest res) = Some (Date.mk 2024 2 29)
    /\ option_map r_date (t_prev res) = Some (Some (Date.mk 2024 2 27))
    /\ t_source res = "TWSE".
Proof.
  eexists. split; [reflexivity|]. split; [reflexivity|]. split; [reflexivity|].
  exact (proj1 (fetch_twse_latest_never_after_target Scenario.month_boundary "2317"
                  (Date.mk 2024 3 3) _ eq_refl)).
Defined.

(** X7. For a month between 1 and 12 other than January of year 1, the
    retry date is the first day of the previous calendar month, whatever the
    day of the target date; from January of year 1 it raises
    [OverflowError]. *)
Theorem prev_month_is_first_of_previous_month (d : Date.date) :
  1 <= Date.month d <= 12 ->
  1 <= Date.year d ->
  (1 < Date.year d \/ 1 < Date.month d ->
   prev_month d = Ok (first_of_previous_month d))
  /\ (Date.year d = 1 /\ Date.month d = 1 -> prev_month d = Raise OverflowError).
Proof.
  intros Hm Hy. unfold prev_month, Date.minus_one_day, Date.replace_day,
    first_of_previous_month. simpl.
  split.
  - intros Hok.
    destruct (Z.ltb_spec 1 (Date.month d)).
    + destruct (Z.eqb_spec (Date.month d) 1); [lia|]. reflexivity.
    + destruct (Z.eqb_spec (Date.month d) 1); [|lia].
      destruct (Z.ltb_spec 1 (Date.year d)); [reflexivity | lia].
  - intros [Ey Em]. rewrite Ey, Em. reflexivity.
Qed.

(** X7 on 2024-03-31 and 2024-01-15. *)
Lemma prev_month_is_first_of_previous_month_examples :
  (1 <= Date.month (Date.mk 2024 3 31) <= 12 /\ 1 <= Date.year (Date.mk 2024 3 31))
  /\ prev_month (Date.mk 2024 3 31) = Ok (Date.mk 2024 2 1)
  /\ prev_month (Date.mk 2024 1 15) = Ok (Date.mk 2023 12 1).
Proof.
  split; [simpl; lia|]. split.
  - exact (proj1 (prev_month_is_first_of_previous_month (Date.mk 2024 3 31)
                    ltac:(simpl; lia) ltac:(simpl; lia)) ltac:(simpl; lia)).
  - exact (proj1 (prev_month_is_first_of_previous_month (Date.mk 2024 1 15)
                    ltac:(simpl; lia) ltac:(simpl; lia)) ltac:(simpl; lia)).
Defined.

(** X8. The resolver makes one request, for the month of the target date,
    or two, the second one for the month [prev_month] gives; it never makes
    a third. *)
Theorem fetch_twse_latest_at_most_two_requests
        (w : world) (stock_no : string) (target_date : Date.date) :
  trace (fetch_twse_latest w stock_no target_date)
  = [CallTwseMonth stock_no (Date.year target_date) (Date.month target_date)]
  \/ exists pm,
       prev_month target_date = Ok pm
       /\ trace (fetch_twse_latest w stock_no target_date)
          = [CallTwseMonth stock_no (Date.year target_date) (Date.month target_date);
             CallTwseMonth stock_no (Date.year pm) (Date.month pm)].
Proof.
  destruct (twse_month_of w stock_no (Date.year target_date) (Date.month target_date))
    as [[m|]|e] eqn:Hc.
  - destruct (usable target_date m) as [|u us] eqn:Hus.
    + destruct (m_rows m) as [|r0 rs] eqn:Em.
      * left. unfold fetch_twse_latest.
        rewrite fetch_twse_month_eq, Hc, bind_ok_pair, Em. reflexivity.
      * destruct (prev_month target_date) as [pm|e] eqn:Hpm.
        -- right. exists pm. split; [reflexivity|].
           rewrite (retry_window w stock_no target_date pm m Hpm Hc); [reflexivity| |exact Hus].
           rewrite Em. discriminate.
        -- left. unfold fetch_twse_latest.
           rewrite fetch_twse_month_eq, Hc, bind_ok_pair, Em.
           unfold usable in Hus. rewrite Em in Hus. rewrite Hus, Hpm. reflexivity.
    + left. rewrite (first_window _ _ _ _ Hc); [reflexivity|].
      rewrite Hus. discriminate.
  - left. unfold fetch_twse_latest.
    rewrite fetch_twse_month_eq, Hc, bind_ok_pair. reflexivity.
  - left. unfold fetch_twse_latest. rewrite fetch_twse_month_eq, Hc. reflexivity.
Qed.

End TwseCoverage.

(* ===================================================================== *)
(** ** Secondary source: the snapshot table and its label lookup          *)
(* ===================================================================== *)

Section TpexCoverage.
Import Py IO Tpex Props Coverage.

Lemma scan_rows_with_header (reader : list (list string)) :
  forall (h : list string) (acc : list (list string)),
    fold_left scan_row reader (Some h, acc)
    = (Some h, acc ++ List.filter nonempty reader).
Proof.
  induction reader as [|r reader IH]; intros h acc; simpl.
  - rewrite app_nil_r. reflexivity.
  - destruct r as [|c cs]; simpl; [apply IH|].
    rewrite IH, <- app_assoc. reflexivity.
Qed.

Lemma scan_rows_from_start (reader : list (list string)) :
  fold_left scan_row reader (None, [])
  = match List.filter nonempty reader with
    | [] => (None, [])
    | h :: rs => (Some h, rs)
    end.
Proof.
  induction reader as [|r reader IH]; simpl; [reflexivity|].
  destruct r as [|c cs]; simpl; [exact IH|].
  apply scan_rows_with_header.
Qed.

Lemma fetch_tpex_latest_all_eq (w : world) (reader : list (list string)) :
  tpex_csv w = Ok reader ->
  fetch_tpex_latest_all w
  = ([CallTpexAll],
     Ok match List.filter nonempty reader with
        | [] => None
        | header :: rows =>
            Some {| x_header := header; x_hmap := build_hmap header 0 ∅;
                    x_rows := rows |}
        end).
Proof.
  intros Hcsv. unfold fetch_tpex_latest_all, emit, lift.
  rewrite bind_ok_pair, Hcsv, bind_ok_pair, scan_rows_from_start.
  destruct (List.filter nonempty reader) as [|h rs] eqn:Ef; [reflexivity|].
  assert (Hh : nonempty h = true).
  { assert (Hin : In h (List.filter nonempty reader)) by (rewrite Ef; left; reflexivity).
    apply List.filter_In in Hin. apply Hin. }
  destruct h as [|c cs]; [discriminate|]. reflexivity.
Qed.

(** A table the fetch returns has a header, the label map of that header,
    and no empty row. *)
Lemma snapshot_well_formed (w : world) (t : tpex_table) :
  outcome (fetch_tpex_latest_all w) = Ok (Some t) ->
  x_hmap t = build_hmap (x_header t) 0 ∅
  /\ x_header t <> []
  /\ forall r, In r (x_rows t) -> r <> [].
Proof.
  destruct (tpex_csv w) as [reader|e] eqn:Hcsv.
  - rewrite (fetch_tpex_latest_all_eq w reader Hcsv). unfold outcome; simpl.
    intros Ht.
    destruct (List.filter nonempty reader) as [|h rs] eqn:Ef; [discriminate|].
    injection Ht as <-. simpl.
    assert (Hall : forall r, In r (h :: rs) -> r <> []).
    { intros r Hr. rewrite <- Ef in Hr. apply List.filter_In in Hr.
      destruct Hr as [_ Hr]. destruct r; [discriminate Hr | discriminate]. }
    split; [reflexivity|]. split; [apply Hall; left; reflexivity|].
    intros r Hr. apply Hall. right. exact Hr.
  - unfold fetch_tpex_latest_all, emit, lift. rewrite bind_ok_pair, Hcsv. discriminate.
Qed.

(** X9. The snapshot is built from the non-empty rows of the download: no
    table when there is none, otherwise the first one as header and the
    others, in order, as rows; so neither the header nor any row of a table
    is empty. The fetch is the only call made. *)
Theorem fetch_tpex_latest_all_keeps_nonempty_rows
        (w : world) (reader : list (list string)) :
  tpex_csv w = Ok reader ->
  fetch_tpex_latest_all w
  = ([CallTpexAll],
     Ok match List.filter nonempty reader with
        | [] => None
        | header :: rows =>
            Some {| x_header := header; x_hmap := build_hmap header 0 ∅;
                    x_rows := rows |}
        end)
  /\ forall t, outcome (fetch_tpex_latest_all w) = Ok (Some t) ->
       x_header t <> [] /\ forall r, In r (x_rows t) -> r <> [].
Proof.
  intros Hcsv. split; [exact (fetch_tpex_latest_all_eq w reader Hcsv)|].
  intros t Ht. exact (proj2 (snapshot_well_formed w t Ht)).
Qed.

(** X9 on the snapshot of the example portfolio. *)
Lemma fetch_tpex_latest_all_keeps_nonempty_rows_example :
  tpex_csv Scenario.portfolio
  = Ok [ [ "代號"; "名稱"; "收盤"; "漲跌" ];
         [ "5483"; "SAS"; "150.5"; "+1.5" ];
         [ "6488"; "GlobalWafers"; "1,234.5"; "--" ] ]
  /\ exists t, outcome (fetch_tpex_latest_all Scenario.portfolio) = Ok (Some t)
               /\ x_header t = [ "代號"; "名稱"; "收盤"; "漲跌" ]
               /\ forall r, In r (x_rows t) -> r <> [].
Proof.
  split; [reflexivity|].
  destruct (fetch_tpex_latest_all_keeps_nonempty_rows Scenario.portfolio _ eq_refl)
    as [_ H].
  eexists. split; [reflexivity|]. split; [reflexivity|].
  exact (proj2 (H _ eq_refl)).
Defined.

(** Where [build_hmap] leaves a label: untouched when the header lacks it,
    otherwise at its last position. *)
Lemma build_hmap_lookup (label : string) (header : list string) :
  forall (i : Z) (acc : gmap string Z),
    (~ In label header -> build_hmap header i acc !! label = acc !! label)
    /\ (In label header ->
        exists k, build_hmap header i acc !! label = Some (i + Z.of_nat k)
                  /\ nth_error header k = Some label
                  /\ ~ In label (skipn (S k) header)).
Proof.
  induction header as [|name rest IH]; intros i acc; simpl.
  - split; [reflexivity | intros []].
  - destruct (IH (i + 1) (<[name := i]> acc)) as [IHn IHy].
    destruct (in_dec string_dec label rest) as [Hin|Hnin].
    + split; [intros H; exfalso; apply H; right; exact Hin|].
      intros _. destruct (IHy Hin) as (k & Hk & Hnth & Hlast).
      exists (S k). split; [rewrite Hk; f_equal; lia|]. split; assumption.
    + rewrite (IHn Hnin). split.
      * intros H. apply lookup_insert_ne. intros ->. apply H. left; reflexivity.
      * intros [->|Hin]; [|contradiction].
        exists O. split; [rewrite lookup_insert_eq; f_equal; lia|].
        split; [reflexivity | exact Hnin].
Qed.

Lemma column_lookup (header : list string) (label : string) :
  (~ In label header <-> column (build_hmap header 0 ∅) label = -1)
  /\ (In label header ->
      exists k, column (build_hmap header 0 ∅) label = Z.of_nat k
                /\ nth_error header k = Some label
                /\ ~ In label (skipn (S k) header)).
Proof.
  destruct (build_hmap_lookup label header 0 ∅) as [Hn Hy].
  assert (Hcol : In label header ->
                 exists k, column (build_hmap header 0 ∅) label = Z.of_nat k
                           /\ nth_error header k = Some label
                           /\ ~ In label (skipn (S k) header)).
  { intros Hin. destruct (Hy Hin) as (k & Hk & Hnth & Hlast).
    exists k. unfold column. rewrite Hk. simpl. repeat split; assumption. }
  split; [|exact Hcol]. split.
  - intros Hnin. unfold column. rewrite (Hn Hnin), lookup_empty. reflexivity.
  - intros Hc. intros Hin. destruct (Hcol Hin) as (k & Hk & _). lia.
Qed.

(** X10. The column of a label is -1 exactly when the header lacks the
    label; otherwise it is the position of the label's last occurrence in
    the header. *)
Theorem column_is_last_position (header : list string) (label : string) :
  (~ In label header <-> column (build_hmap header 0 ∅) label = -1)
  /\ (In label header ->
      exists k, column (build_hmap header 0 ∅) label = Z.of_nat k
                /\ nth_error header k = Some label
                /\ ~ In label (skipn (S k) header)).
Proof. exact (column_lookup header label). Qed.

(** X10 on a header that repeats a label. *)
Lemma column_is_last_position_example :
  In "收盤" [ "代號"; "收盤"; "名稱"; "收盤"; "漲跌" ]
  /\ column (build_hmap [ "代號"; "收盤"; "名稱"; "收盤"; "漲跌" ] 0 ∅) "收盤" = 3
  /\ column (build_hmap [ "代號"; "收盤"; "名稱"; "收盤"; "漲跌" ] 0 ∅) "成交" = -1.
Proof.
  assert (Hin : In "收盤" [ "代號"; "收盤"; "名稱"; "收盤"; "漲跌" ])
    by (right; left; reflexivity).
  split; [exact Hin|].
  destruct (column_is_last_position [ "代號"; "收盤"; "名稱"; "收盤"; "漲跌" ] "收盤")
    as [_ H].
  destruct (column_is_last_position [ "代號"; "收盤"; "名稱"; "收盤"; "漲跌" ] "成交")
    as [[H' _] _].
  split; [vm_compute; reflexivity|].
  apply H'. simpl. intuition discriminate.
Defined.

Lemma column_range (header : list string) (label : string) :
  -1 <= column (build_hmap header 0 ∅) label < Z.of_nat (length header).
Proof.
  destruct (column_lookup header label) as [[Hn _] Hy].
  destruct (in_dec string_dec label header) as [Hin|Hnin].
  - destruct (Hy Hin) as (k & -> & Hnth & _).
    assert (k < length header)%nat by (apply nth_error_Some; congruence). lia.
  - rewrite (Hn Hnin). lia.
Qed.

(** Indexing succeeds from [-len] to [len - 1]. *)
Lemma index_in_range {A} (l : list A) (i : Z) :
  - Z.of_nat (length l) <= i < Z.of_nat (length l) ->
  exists x, index l i = Ok x /\ In x l.
Proof.
  intros Hi. unfold index.
  set (j := if i <? 0 then i + Z.of_nat (length l) else i).
  assert (Hj : 0 <= j < Z.of_nat (length l)).
  { unfold j. destruct (Z.ltb_spec i 0); lia. }
  destruct (Z.leb_spec 0 j); [|lia]. destruct (Z.ltb_spec j (Z.of_nat (length l))); [|lia].
  simpl.
  destruct (nth_error l (Z.to_nat j)) as [x|] eqn:E.
  - exists x. split; [reflexivity|]. eapply nth_error_In, E.
  - apply nth_error_None in E. lia.
Qed.

Lemma index_out_of_range {A} (l : list A) (i : Z) :
  Z.of_nat (length l) <= i -> index l i = Raise IndexError.
Proof.
  intros Hi. unfold index.
  destruct (Z.ltb_spec i 0); [lia|].
  destruct (Z.leb_spec 0 i); [|lia].
  destruct (Z.ltb_spec i (Z.of_nat (length l))); [lia|]. reflexivity.
Qed.

Lemma index_nth {A} (l : list A) (k : nat) (x : A) :
  nth_error l k = Some x -> index l (Z.of_nat k) = Ok x.
Proof.
  intros E. unfold index.
  assert (k < length l)%nat by (apply nth_error_Some; congruence).
  destruct (Z.ltb_spec (Z.of_nat k) 0); [lia|].
  destruct (Z.leb_spec 0 (Z.of_nat k)); [|lia].
  destruct (Z.ltb_spec (Z.of_nat k) (Z.of_nat (length l))); [|lia].
  simpl. rewrite Nat2Z.id, E. reflexivity.
Qed.

(** What the row loop returns. *)
Lemma find_row_spec (h : gmap string Z) (code : string) (rows : list (list string)) :
  (forall r, find_row h rows code = Ok (Some r) ->
     exists pre post,
       rows = pre ++ r :: post
       /\ index r (column h LABEL_CODE) = Ok code
       /\ forall x, In x pre ->
            exists cell, index x (column h LABEL_CODE) = Ok cell /\ cell <> code)
  /\ (find_row h rows code = Ok None ->
      forall x, In x rows ->
        exists cell, index x (column h LABEL_CODE) = Ok cell /\ cell <> code).
Proof.
  induction rows as [|r0 rows [IHs IHn]]; simpl.
  - split; [discriminate | intros _ x []].
  - destruct (index r0 (column h LABEL_CODE)) as [cell|e] eqn:Ei; simpl;
      [|split; discriminate].
    destruct (String.eqb cell code) eqn:Ec.
    + apply String.eqb_eq in Ec. subst cell. split; [|discriminate].
      intros r Hr. injection Hr as <-. exists [], rows.
      split; [reflexivity|]. split; [exact Ei | intros x []].
    + apply String.eqb_neq in Ec. split.
      * intros r Hr. destruct (IHs r Hr) as (pre & post & -> & Hi & Hpre).
        exists (r0 :: pre), post. split; [reflexivity|]. split; [exact Hi|].
        intros x [<-|Hx]; [eauto | apply Hpre, Hx].
      * intros Hn x [<-|Hx]; [eauto | apply (IHn Hn), Hx].
Qed.

(** X11. The lookup returns the first row of the snapshot whose cell in
    the code column is exactly the symbol, and reports a miss only when no
    row has such a cell; without a snapshot it reports a miss. *)
Theorem get_tpex_row_first_exact_match (data : tpex_table) (code : string) :
  (forall r, get_tpex_row (Some data) code = Ok (Some r) ->
     exists pre post,
       x_rows data = pre ++ r :: post
       /\ index r (column (x_hmap data) LABEL_CODE) = Ok code
       /\ forall x, In x pre ->
            exists cell, index x (column (x_hmap data) LABEL_CODE) = Ok cell
                         /\ cell <> code)
  /\ (get_tpex_row (Some data) code = Ok None ->
      forall x, In x (x_rows data) ->
        exists cell, index x (column (x_hmap data) LABEL_CODE) = Ok cell
                     /\ cell <> code)
  /\ get_tpex_row None code = Ok None.
Proof.
  destruct (find_row_spec (x_hmap data) code (x_rows data)) as [Hs Hn].
  split; [exact Hs|]. split; [exact Hn | reflexivity].
Qed.

(** X11 on the example snapshot: 6488 is its second row, 648 is in none. *)
Lemma get_tpex_row_first_exact_match_example :
  get_tpex_row Scenario.portfolio_tpex "6488"
  = Ok (Some [ "6488"; "GlobalWafers"; "1,234.5"; "--" ])
  /\ get_tpex_row Scenario.portfolio_tpex "648" = Ok None
  /\ exists data pre post,
       Scenario.portfolio_tpex = Some data
       /\ x_rows data = pre ++ [ "6488"; "GlobalWafers"; "1,234.5"; "--" ] :: post
       /\ forall x, In x pre ->
            exists cell, index x (column (x_hmap data) LABEL_CODE) = Ok cell
                         /\ cell <> "6488".
Proof.
  split; [vm_compute; reflexivity|]. split; [vm_compute; reflexivity|].
  eexists. 
  destruct (get_tpex_row_first_exact_match
              {| x_header := [ "代號"; "名稱"; "收盤"; "漲跌" ];
                 x_hmap := build_hmap [ "代號"; "名稱"; "收盤"; "漲跌" ] 0 ∅;
                 x_rows := [ [ "5483"; "SAS"; "150.5"; "+1.5" ];
                             [ "6488"; "GlobalWafers"; "1,234.5"; "--" ] ] |} "6488")
    as [H _].
  destruct (H [ "6488"; "GlobalWafers"; "1,234.5"; "--" ]) as (pre & post & Hrows & _ & Hpre).
  { vm_compute. reflexivity. }
  exists pre, post. split; [reflexivity|]. split; [exact Hrows | exact Hpre].
Defined.

End TpexCoverage.

Section TpexLookup.
Import Py IO Tpex Report Props Coverage.

Lemma find_row_total (h : gmap string Z) (code : string) (rows : list (list string)) :
  (forall r, In r rows -> exists cell, index r (column h LABEL_CODE) = Ok cell) ->
  exists o, find_row h rows code = Ok o /\ forall r, o = Some r -> In r rows.
Proof.
  induction rows as [|r0 rows IH]; simpl; intros Hall.
  - exists None. split; [reflexivity | discriminate].
  - destruct (Hall r0 (or_introl eq_refl)) as (cell & ->). simpl.
    destruct (String.eqb cell code).
    + exists (Some r0). split; [reflexivity|]. intros r Hr. injection Hr as <-. left; reflexivity.
    + destruct IH as (o & Ho & Hin); [intros r Hr; apply Hall; right; exact Hr|].
      exists o. split; [exact Ho|]. intros r Hr. right. apply Hin, Hr.
Qed.

(** Any labelled cell can be read from a row as wide as the header. *)
Lemma cell_readable (header row : list string) (label : string) :
  header <> [] ->
  (length header <= length row)%nat ->
  exists cell, index row (column (build_hmap header 0 ∅) label) = Ok cell.
Proof.
  intros Hne Hlen.
  pose proof (column_range header label) as Hc.
  assert (0 < length header)%nat by (destruct header; [contradiction | simpl; lia]).
  destruct (index_in_range row (column (build_hmap header 0 ∅) label)) as (x & Hx & _);
    [lia | eauto].
Qed.

(** X12. On a snapshot in which every row is at least as wide as the
    header, the secondary lookup of any symbol completes without an
    exception, whichever of the four labels the header carries. *)
Theorem secondary_quote_total_on_rectangular_snapshot
        (w : world) (data : tpex_table) (code : string) :
  outcome (fetch_tpex_latest_all w) = Ok (Some data) ->
  (forall r, In r (x_rows data) -> (length (x_header data) <= length r)%nat) ->
  exists q, outcome (secondary_quote w (Some data) code) = Ok q.
Proof.
  intros Hfetch Hrect.
  destruct (snapshot_well_formed w data Hfetch) as (Hmap & Hne & _).
  assert (Hcell : forall r label, In r (x_rows data) ->
                    exists cell, index r (column (x_hmap data) label) = Ok cell).
  { intros r label Hr. rewrite Hmap. apply cell_readable; [exact Hne | apply Hrect, Hr]. }
  destruct (find_row_total (x_hmap data) code (x_rows data)) as (o & Ho & Hin).
  { intros r Hr. apply Hcell, Hr. }
  unfold secondary_quote, emit, lift.
  rewrite bind_ok_pair. unfold outcome at 1. cbn [snd].
  unfold get_tpex_row. rewrite Ho, bind_ok_pair. unfold outcome at 1. cbn [snd].
  destruct o as [[|c cs]|]; try (eexists; reflexivity).
  assert (Hr : In (c :: cs) (x_rows data)) by (apply Hin; reflexivity).
  unfold parse_tpex_price.
  destruct (Hcell _ LABEL_CLOSE Hr) as (c1 & ->).
  destruct (Hcell _ LABEL_CHANGE Hr) as (c2 & ->).
  destruct (Hcell _ LABEL_NAME Hr) as (c3 & ->).
  simpl rbind.
  destruct (0 <=? column (x_hmap data) LABEL_NAME); eexists; reflexivity.
Qed.

(** X12 on the snapshot of the example portfolio. *)
Lemma secondary_quote_total_on_rectangular_snapshot_example :
  (exists data, outcome (fetch_tpex_latest_all Scenario.portfolio) = Ok (Some data)
                /\ Scenario.portfolio_tpex = Some data
                /\ forall r, In r (x_rows data) ->
                             (length (x_header data) <= length r)%nat)
  /\ exists q, outcome (secondary_quote Scenario.portfolio Scenario.portfolio_tpex "5483")
               = Ok q.
Proof.
  assert (Hrect : forall r,
             In r [ [ "5483"; "SAS"; "150.5"; "+1.5" ];
                    [ "6488"; "GlobalWafers"; "1,234.5"; "--" ] ] ->
             (length [ "代號"; "名稱"; "收盤"; "漲跌" ] <= length r)%nat).
  { intros r [<-|[<-|[]]]; simpl; lia. }
  split.
  - eexists. split; [reflexivity|]. split; [reflexivity | exact Hrect].
  - exact (secondary_quote_total_on_rectangular_snapshot Scenario.portfolio
             {| x_header := [ "代號"; "名稱"; "收盤"; "漲跌" ];
                x_hmap := build_hmap [ "代號"; "名稱"; "收盤"; "漲跌" ] 0 ∅;
                x_rows := [ [ "5483"; "SAS"; "150.5"; "+1.5" ];
                            [ "6488"; "GlobalWafers"; "1,234.5"; "--" ] ] |}
             "5483" eq_refl Hrect).
Defined.

(** X13. A row that is too short to have a cell in the code column, met
    before any matching row, ends the lookup with [IndexError]: it is not
    skipped, and the rows after it are not searched. *)
Theorem get_tpex_row_raises_on_short_row
        (data : tpex_table) (code : string)
        (pre post : list (list string)) (r : list string) :
  x_rows data = pre ++ r :: post ->
  (forall x, In x pre ->
     exists cell, index x (column (x_hmap data) LABEL_CODE) = Ok cell /\ cell <> code) ->
  Z.of_nat (length r) <= column (x_hmap data) LABEL_CODE ->
  get_tpex_row (Some data) code = Raise IndexError.
Proof.
  intros Hrows Hpre Hshort. unfold get_tpex_row. rewrite Hrows. clear Hrows.
  induction pre as [|x pre IH]; simpl.
  - rewrite (index_out_of_range r _ Hshort). reflexivity.
  - destruct (Hpre x (or_introl eq_refl)) as (cell & -> & Hne). simpl.
    apply String.eqb_neq in Hne. rewrite Hne.
    apply IH. intros y Hy. apply Hpre. right. exact Hy.
Qed.

(** X13 on a snapshot whose first row is truncated: 6488 stands in the
    row after it and is not found. *)
Lemma get_tpex_row_raises_on_short_row_example :
  (outcome (fetch_tpex_latest_all ragged) = Ok (Some ragged_table)
   /\ x_rows ragged_table
      = [] ++ [ "SAS" ] :: [ [ "GlobalWafers"; "6488"; "1,234.5"; "--" ] ]
   /\ Z.of_nat (length [ "SAS" ]) <= column (x_hmap ragged_table) LABEL_CODE)
  /\ get_tpex_row (Some ragged_table) "6488" = Raise IndexError.
Proof.
  assert (Hshort : Z.of_nat (length [ "SAS" ]) <= column (x_hmap ragged_table) LABEL_CODE)
    by (vm_compute; discriminate).
  split; [split; [reflexivity | split; [reflexivity | exact Hshort]]|].
  exact (get_tpex_row_raises_on_short_row ragged_table "6488" []
           [ [ "GlobalWafers"; "6488"; "1,234.5"; "--" ] ] [ "SAS" ]
           eq_refl (fun x (H : In x []) => match H with end) Hshort).
Defined.

Lemma combine_nth_error {A B} (l : list A) (l' : list B) (a : A) (b : B) :
  In (a, b) (combine l l') ->
  exists k, nth_error l k = Some a /\ nth_error l' k = Some b.
Proof.
  revert l'. induction l as [|x l IH]; intros [|y l']; simpl;
    [intros [] | intros [] | intros [] |].
  intros [H|H].
  - injection H as -> ->. exists O. split; reflexivity.
  - destruct (IH l' H) as (k & Hk & Hk'). exists (S k). split; assumption.
Qed.

(** Under a header without repeated labels, the column of a label leads
    to the cell that stands under it. *)
Lemma labelled_cell (header row : list string) (label cell : string) :
  List.NoDup header ->
  In (label, cell) (combine header row) ->
  index row (column (build_hmap header 0 ∅) label) = Ok cell
  /\ 0 <= column (build_hmap header 0 ∅) label.
Proof.
  intros Hnd Hin.
  destruct (combine_nth_error _ _ _ _ Hin) as (k & Hk & Hk').
  assert (Hl : In label header) by (eapply nth_error_In, Hk).
  destruct (proj2 (column_lookup header label) Hl) as (k' & Hc & Hnth & _).
  assert (k' = k).
  { apply (proj1 (List.NoDup_nth_error header) Hnd).
    - apply nth_error_Some. congruence.
    - congruence. }
  subst k'. rewrite Hc. split; [apply index_nth, Hk' | lia].
Qed.

(** X14. Under a header without repeated labels, the price triple is read
    from the cells that stand under the close, change and name labels,
    wherever those columns are. *)
Theorem parse_tpex_price_reads_labelled_cells
        (w : world) (header row : list string) (close change name : string) :
  List.NoDup header ->
  In (LABEL_CLOSE, close) (combine header row) ->
  In (LABEL_CHANGE, change) (combine header row) ->
  In (LABEL_NAME, name) (combine header row) ->
  parse_tpex_price w row (build_hmap header 0 ∅)
  = Ok (parse_float w close, parse_float w change, Some name).
Proof.
  intros Hnd Hc Hch Hn. unfold parse_tpex_price.
  destruct (labelled_cell _ _ _ _ Hnd Hc) as [-> _].
  destruct (labelled_cell _ _ _ _ Hnd Hch) as [-> _].
  destruct (labelled_cell _ _ _ _ Hnd Hn) as [-> Hpos].
  simpl rbind.
  destruct (Z.leb_spec 0 (column (build_hmap header 0 ∅) LABEL_NAME)); [reflexivity | lia].
Qed.

(** X14 on a snapshot whose columns come in another order. *)
Lemma parse_tpex_price_reads_labelled_cells_example :
  (List.NoDup [ "收盤"; "漲跌"; "名稱"; "代號" ]
   /\ In (LABEL_CLOSE, "150.5")
         (combine [ "收盤"; "漲跌"; "名稱"; "代號" ] [ "150.5"; "--"; "SAS"; "5483" ])
   /\ In (LABEL_CHANGE, "--")
         (combine [ "收盤"; "漲跌"; "名稱"; "代號" ] [ "150.5"; "--"; "SAS"; "5483" ])
   /\ In (LABEL_NAME, "SAS")
         (combine [ "收盤"; "漲跌"; "名稱"; "代號" ] [ "150.5"; "--"; "SAS"; "5483" ]))
  /\ parse_tpex_price Scenario.portfolio [ "150.5"; "--"; "SAS"; "5483" ]
       (build_hmap [ "收盤"; "漲跌"; "名稱"; "代號" ] 0 ∅)
     = Ok (Some (Scenario.dec 1505 10), None, Some "SAS").
Proof.
  assert (Hnd : List.NoDup [ "收盤"; "漲跌"; "名稱"; "代號" ]).
  { repeat constructor; simpl; intuition discriminate. }
  assert (Hc : In (LABEL_CLOSE, "150.5")
                  (combine [ "收盤"; "漲跌"; "名稱"; "代號" ]
                           [ "150.5"; "--"; "SAS"; "5483" ]))
    by (left; reflexivity).
  assert (Hch : In (LABEL_CHANGE, "--")
                   (combine [ "收盤"; "漲跌"; "名稱"; "代號" ]
                            [ "150.5"; "--"; "SAS"; "5483" ]))
    by (right; left; reflexivity).
  assert (Hn : In (LABEL_NAME, "SAS")
                  (combine [ "收盤"; "漲跌"; "名稱"; "代號" ]
                           [ "150.5"; "--"; "SAS"; "5483" ]))
    by (right; right; left; reflexivity).
  split; [repeat split; assumption|].
  exact (parse_tpex_price_reads_labelled_cells Scenario.portfolio _ _ _ _ _ Hnd Hc Hch Hn).
Defined.

End TpexLookup.

(* ===================================================================== *)
(** ** Portfolio aggregator: the calls of a run and how a run ends        *)
(* ===================================================================== *)

Section RunTrace.
Import Py IO Ledger Report Props Coverage.

Lemma fetch_google_news_eq (w : world) (code : string) (name : option string) :
  fetch_google_news w code name = ([CallNews code name], google_news w code name).
Proof. reflexivity. Qed.

(** The secondary lookup makes exactly its one recorded call. *)
Lemma secondary_quote_trace_eq (w : world) (tpex_all : option tpex_table)
      (code : string) :
  trace (secondary_quote w tpex_all code) = [CallTpexRow code].
Proof.
  unfold secondary_quote, emit, lift. rewrite bind_ok_pair. unfold trace at 1. cbn [fst].
  destruct (Tpex.get_tpex_row tpex_all code) as [row|e]; [|reflexivity].
  rewrite bind_ok_pair. unfold trace at 1. cbn [fst app].
  destruct row as [[|c cs]|]; try reflexivity.
  destruct tpex_all as [data|]; [|reflexivity].
  destruct (Tpex.parse_tpex_price w (c :: cs) (x_hmap data)) as [[[close change] name]|e];
    reflexivity.
Qed.

(** The calls of the quote resolution: those of the primary resolver and,
    when it ends without a close, the one secondary lookup. *)
Lemma resolve_quote_trace_eq (w : world) (tpex_all : option tpex_table)
      (code : string) (target_date : Date.date) :
  trace (resolve_quote w tpex_all code target_date)
  = trace (Twse.fetch_twse_latest w code target_date)
    ++ match outcome (Twse.fetch_twse_latest w code target_date) with
       | Ok (Some t) =>
           match r_close (t_latest t) with
           | Some _ => []
           | None => [CallTpexRow code]
           end
       | Ok None => [CallTpexRow code]
       | Raise _ => []
       end.
Proof.
  unfold resolve_quote. rewrite trace_bind. f_equal.
  destruct (outcome (Twse.fetch_twse_latest w code target_date)) as [[t|]|e];
    [|apply secondary_quote_trace_eq | reflexivity].
  destruct (r_close (t_latest t)); [reflexivity | apply secondary_quote_trace_eq].
Qed.

(** The calls of one turn of the loop: those of the quote resolution and,
    when it ends with a close, the one news request. *)
Lemma report_step_trace_eq (w : world) (tpex_all : option tpex_table)
      (target_date : Date.date) (st : list item * totals) (h : holding) :
  trace (report_step w tpex_all target_date st h)
  = trace (resolve_quote w tpex_all (h_code h) target_date)
    ++ match outcome (resolve_quote w tpex_all (h_code h) target_date) with
       | Ok q =>
           match q_close q with
           | Some _ => [CallNews (h_code h) (q_name q)]
           | None => []
           end
       | Raise _ => []
       end.
Proof.
  unfold report_step. rewrite trace_bind. f_equal.
  destruct (outcome (resolve_quote w tpex_all (h_code h) target_date)) as [q|e];
    [|reflexivity].
  destruct (q_close q) as [close|]; [|reflexivity].
  rewrite day_pct_of_value. unfold lift. rewrite bind_ok_pair.
  unfold trace at 1. cbn [fst app].
  rewrite fetch_google_news_eq.
  destruct (google_news w (h_code h) (q_name q)); reflexivity.
Qed.

Lemma fetch_twse_latest_requests (w : world) (stock_no : string)
      (target_date : Date.date) :
  trace (Twse.fetch_twse_latest w stock_no target_date)
  = [CallTwseMonth stock_no (Date.year target_date) (Date.month target_date)]
  \/ exists pm,
       Twse.prev_month target_date = Ok pm
       /\ trace (Twse.fetch_twse_latest w stock_no target_date)
          = [CallTwseMonth stock_no (Date.year target_date) (Date.month target_date);
             CallTwseMonth stock_no (Date.year pm) (Date.month pm)].
Proof.
  destruct (twse_month_of w stock_no (Date.year target_date) (Date.month target_date))
    as [[m|]|e] eqn:Hc.
  - destruct (usable target_date m) as [|u us] eqn:Hus.
    + destruct (m_rows m) as [|r0 rs] eqn:Em.
      * left. unfold Twse.fetch_twse_latest.
        rewrite fetch_twse_month_eq, Hc, bind_ok_pair, Em. reflexivity.
      * destruct (Twse.prev_month target_date) as [pm|e] eqn:Hpm.
        -- right. exists pm. split; [reflexivity|].
           rewrite (retry_window w stock_no target_date pm m Hpm Hc); [reflexivity| |exact Hus].
           rewrite Em. discriminate.
        -- left. unfold Twse.fetch_twse_latest.
           rewrite fetch_twse_month_eq, Hc, bind_ok_pair, Em.
           unfold usable in Hus. rewrite Em in Hus. rewrite Hus, Hpm. reflexivity.
    + left. rewrite (first_window _ _ _ _ Hc); [reflexivity|].
      rewrite Hus. discriminate.
  - left. unfold Twse.fetch_twse_latest.
    rewrite fetch_twse_month_eq, Hc, bind_ok_pair. reflexivity.
  - left. unfold Twse.fetch_twse_latest. rewrite fetch_twse_month_eq, Hc. reflexivity.
Qed.

(** One turn of the loop makes one or two month requests, at most one
    snapshot lookup, at most one news request, and no snapshot fetch. *)
Lemma report_step_calls (w : world) (tpex_all : option tpex_table)
      (target_date : Date.date) (st : list item * totals) (h : holding) :
  (1 <= length (List.filter is_twse_month
                  (trace (report_step w tpex_all target_date st h))) <= 2)%nat
  /\ List.filter is_tpex_all (trace (report_step w tpex_all target_date st h)) = [].
Proof.
  rewrite report_step_trace_eq, resolve_quote_trace_eq, !List.filter_app.
  assert (Hnews : forall l : list event,
             (forall e, In e l -> (exists c n, e = CallNews c n) \/ (exists c, e = CallTpexRow c)) ->
             List.filter is_twse_month l = [] /\ List.filter is_tpex_all l = []).
  { induction l as [|e l IH]; intros Hl; [split; reflexivity|].
    destruct IH as [IH1 IH2]; [intros e' He'; apply Hl; right; exact He'|].
    destruct (Hl e (or_introl eq_refl)) as [(c & n & ->) | (c & ->)]; simpl; auto. }
  set (t2 := match outcome (Twse.fetch_twse_latest w (h_code h) target_date) with
             | Ok (Some t) => match r_close (t_latest t) with
                              | Some _ => []
                              | None => [CallTpexRow (h_code h)]
                              end
             | Ok None => [CallTpexRow (h_code h)]
             | Raise _ => []
             end).
  set (t3 := match outcome (resolve_quote w tpex_all (h_code h) target_date) with
             | Ok q => match q_close q with
                       | Some _ => [CallNews (h_code h) (q_name q)]
                       | None => []
                       end
             | Raise _ => []
             end).
  destruct (Hnews t2) as [H2a H2b].
  { unfold t2. intros e He.
    destruct (outcome (Twse.fetch_twse_latest w (h_code h) target_date)) as [[t|]|x];
      [destruct (r_close (t_latest t))| |]; try destruct He as [<-|[]]; try destruct He; eauto. }
  destruct (Hnews t3) as [H3a H3b].
  { unfold t3. intros e He.
    destruct (outcome (resolve_quote w tpex_all (h_code h) target_date)) as [q|x];
      [destruct (q_close q)|]; try destruct He as [<-|[]]; try destruct He; eauto. }
  rewrite H2a, H2b, H3a, H3b, !app_nil_r.
  destruct (fetch_twse_latest_requests w (h_code h) target_date) as [-> | (pm & _ & ->)];
    simpl; split; (lia || reflexivity).
Qed.

Lemma report_loop_calls (w : world) (tpex_all : option tpex_table)
      (target_date : Date.date) (hs : list holding) :
  forall st,
    (length (List.filter is_twse_month
               (trace (report_loop w tpex_all target_date hs st)))
     <= 2 * length hs)%nat
    /\ List.filter is_tpex_all (trace (report_loop w tpex_all target_date hs st)) = [].
Proof.
  induction hs as [|h hs IH]; intros st; [split; [simpl; lia | reflexivity]|].
  cbn [report_loop]. rewrite trace_bind, !List.filter_app, length_app.
  destruct (report_step_calls w tpex_all target_date st h) as [[_ H1] H2].
  rewrite H2.
  destruct (outcome (report_step w tpex_all target_date st h)) as [st'|e].
  - destruct (IH st') as [H3 H4]. rewrite H4. split; [simpl length; lia | reflexivity].
  - split; [simpl; lia | reflexivity].
Qed.

(** X15. A run on an empty ledger ends with [return 1] and makes no call.
    A run on a non-empty ledger never ends that way; its first call is the
    snapshot fetch, which it never repeats, and it makes at most two month
    requests per holding. *)
Theorem generate_report_call_budget
        (w : world) (hs : list holding) (target_date : Date.date) :
  generate_report w [] target_date = ([], Ok None)
  /\ (hs <> [] ->
      outcome (generate_report w hs target_date) <> Ok None
      /\ exists rest,
           trace (generate_report w hs target_date) = CallTpexAll :: rest
           /\ List.filter is_tpex_all rest = []
           /\ (length (List.filter is_twse_month rest) <= 2 * length hs)%nat).
Proof.
  split; [reflexivity|]. intros Hne.
  destruct hs as [|h0 hs0]; [contradiction|].
  unfold generate_report. split.
  - rewrite outcome_bind.
    destruct (outcome (Tpex.fetch_tpex_latest_all w)) as [tpex_all|e]; [|discriminate].
    cbn [rbind]. rewrite outcome_bind.
    destruct (outcome (report_loop w tpex_all target_date (h0 :: hs0) ([], zero_totals)));
      cbn [rbind]; [rewrite outcome_ret|]; discriminate.
  - rewrite trace_bind.
    assert (Ht : trace (Tpex.fetch_tpex_latest_all w) = [CallTpexAll]).
    { unfold Tpex.fetch_tpex_latest_all, emit, lift. rewrite bind_ok_pair.
      unfold trace at 1. cbn [fst].
      destruct (tpex_csv w) as [reader|e]; [|reflexivity].
      rewrite bind_ok_pair. unfold trace at 1. cbn [fst app].
      destruct (fst _) as [[|c cs]|]; reflexivity. }
    rewrite Ht. eexists. split; [reflexivity|].
    destruct (outcome (Tpex.fetch_tpex_latest_all w)) as [tpex_all|e];
      [|split; [reflexivity | simpl; lia]].
    rewrite trace_bind.
    destruct (report_loop_calls w tpex_all target_date (h0 :: hs0) ([], zero_totals))
      as [H1 H2].
    destruct (outcome (report_loop w tpex_all target_date (h0 :: hs0) ([], zero_totals)));
      cbn [trace ret fst]; rewrite app_nil_r; split; assumption.
Qed.

(** X15 on the example portfolio: three holdings, three month requests. *)
Lemma generate_report_call_budget_portfolio :
  Scenario.holdings <> []
  /\ exists rest,
       trace (generate_report Scenario.portfolio Scenario.holdings Scenario.target)
       = CallTpexAll :: rest
       /\ List.filter is_tpex_all rest = []
       /\ (length (List.filter is_twse_month rest) <= 2 * length Scenario.holdings)%nat.
Proof.
  assert (Hne : Scenario.holdings <> []) by discriminate.
  split; [exact Hne|].
  exact (proj2 (proj2 (generate_report_call_budget Scenario.portfolio Scenario.holdings
                         Scenario.target) Hne)).
Defined.

End RunTrace.

Section RunOutcome.
Import Py IO Ledger Report Props Coverage.

Ltac bind_split H a Ha :=
  apply bind_ok in H; destruct H as (a & Ha & H); cbv beta in H.

(** What the secondary lookup can return. *)
Lemma secondary_quote_cases (w : world) (tpex_all : option tpex_table)
      (code : string) (q : quote) :
  outcome (secondary_quote w tpex_all code) = Ok q ->
  q = no_quote \/ (q_source q = Some "TPEx" /\ q_price_date q = None).
Proof.
  unfold secondary_quote. intros H.
  bind_split H u Hu. bind_split H row Hrow.
  destruct row as [[|c cs]|]; try (rewrite outcome_ret in H; injection H as <-; left; reflexivity).
  destruct tpex_all as [data|];
    [|rewrite outcome_ret in H; injection H as <-; left; reflexivity].
  bind_split H res Hres. destruct res as [[close change] name].
  rewrite outcome_ret in H. injection H as <-. right. split; reflexivity.
Qed.

(** What the quote resolution can return. *)
Lemma resolve_quote_cases (w : world) (tpex_all : option tpex_table)
      (code : string) (target_date : Date.date) (q : quote) :
  outcome (resolve_quote w tpex_all code target_date) = Ok q ->
  (exists t c,
      primary_close w code target_date t c
      /\ q = {| q_source := Some "TWSE"; q_name := t_name t; q_close := Some c;
                q_change := r_change (t_latest t);
                q_price_date := r_date (t_latest t) |})
  \/ (primary_fails w code target_date
      /\ outcome (secondary_quote w tpex_all code) = Ok q).
Proof.
  unfold resolve_quote. intros H. bind_split H twse Ht.
  destruct twse as [t|].
  - destruct (r_close (t_latest t)) as [c|] eqn:Ec.
    + rewrite outcome_ret in H. injection H as <-.
      left. exists t, c. split; [split; assumption | reflexivity].
    + right. split; [right; eauto | exact H].
  - right. split; [left; exact Ht | exact H].
Qed.

(** The date bound of the primary resolver. *)
Lemma primary_date_bound (w : world) (code : string) (target_date : Date.date)
      (t : twse_latest) :
  outcome (Twse.fetch_twse_latest w code target_date) = Ok (Some t) ->
  exists d, r_date (t_latest t) = Some d /\ Date.leb d target_date = true.
Proof.
  intros H. destruct (fetch_twse_latest_inv _ _ _ _ H) as (m & Hm).
  destruct (pick_latest_inv _ _ _ Hm) as (_ & _ & Hin & _).
  exact (usable_dated _ _ _ Hin).
Qed.

(** Where an entry of a run comes from. *)
Lemma item_for_provenance (w : world) (tpex_all : option tpex_table)
      (target_date : Date.date) (h : holding) (it : item) :
  item_for w tpex_all target_date h it ->
  match it with
  | Priced p =>
      (i_source p = Some "TWSE"
       /\ exists d, i_date p = Some d /\ Date.leb d target_date = true)
      \/ (i_source p = Some "TPEx" /\ i_date p = None)
  | NoPrice _ _ source => source = "-" \/ source = "TPEx"
  end.
Proof.
  intros (q & Hq & Hit).
  destruct (resolve_quote_cases _ _ _ _ _ Hq) as [(t & c & [Ho Hc] & ->) | (_ & Hs)].
  - simpl in Hit. destruct Hit as (dp & news & _ & ->). left.
    split; [reflexivity|]. exact (primary_date_bound _ _ _ _ Ho).
  - destruct (secondary_quote_cases _ _ _ _ Hs) as [-> | [Hsrc Hdate]].
    + simpl in Hit. subst it. left. reflexivity.
    + destruct (q_close q) as [close|].
      * destruct Hit as (dp & news & _ & ->). right. split; assumption.
      * subst it. right. rewrite Hsrc. reflexivity.
Qed.

(** X16. Every entry of a completed run is of one of four kinds: priced
    from TWSE with a trading date on or before the target date, priced from
    TPEx without a date, unpriced with source "-", or unpriced with source
    "TPEx" (the snapshot has the row but no readable close). *)
Theorem entries_have_known_provenance
        (w : world) (hs : list holding) (target_date : Date.date) (rep : report) :
  outcome (generate_report w hs target_date) = Ok (Some rep) ->
  forall it, In it (items rep) ->
    match it with
    | Priced p =>
        (i_source p = Some "TWSE"
         /\ exists d, i_date p = Some d /\ Date.leb d target_date = true)
        \/ (i_source p = Some "TPEx" /\ i_date p = None)
    | NoPrice _ _ source => source = "-" \/ source = "TPEx"
    end.
Proof.
  intros Hrun it Hin.
  destruct (generate_report_ok _ _ _ _ Hrun) as (tpex_all & _ & Hall & _).
  destruct (Forall2_pick_r _ _ _ _ Hall Hin) as (h & _ & Hit).
  exact (item_for_provenance _ _ _ _ _ Hit).
Qed.

(** X16 on the example portfolio. *)
Lemma entries_have_known_provenance_portfolio :
  outcome (generate_report Scenario.portfolio Scenario.holdings Scenario.target)
  = Ok (Some Scenario.portfolio_report)
  /\ List.map (fun it => match it with
                         | Priced p => i_source p
                         | NoPrice _ _ source => Some source
                         end) (items Scenario.portfolio_report)
     = [Some "TWSE"; Some "TPEx"; Some "-"]
  /\ forall it, In it (items Scenario.portfolio_report) ->
       match it with
       | Priced p =>
           (i_source p = Some "TWSE"
            /\ exists d, i_date p = Some d /\ Date.leb d Scenario.target = true)
           \/ (i_source p = Some "TPEx" /\ i_date p = None)
       | NoPrice _ _ source => source = "-" \/ source = "TPEx"
       end.
Proof.
  assert (Hrun : outcome (generate_report Scenario.portfolio Scenario.holdings
                            Scenario.target)
                 = Ok (Some Scenario.portfolio_report)) by (vm_compute; reflexivity).
  split; [exact Hrun|]. split; [reflexivity|].
  exact (entries_have_known_provenance _ _ _ _ Hrun).
Defined.

(** X17. The report date of a completed run is never later than the
    target date. *)
Theorem report_date_not_after_target
        (w : world) (hs : list holding) (target_date : Date.date) (rep : report) :
  outcome (generate_report w hs target_date) = Ok (Some rep) ->
  Date.leb (report_date rep) target_date = true.
Proof.
  intros Hrun.
  destruct (generate_report_ok _ _ _ _ Hrun) as (tpex_all & _ & Hall & _ & Hdate).
  rewrite Hdate. unfold report_date_of.
  destruct (omap item_date (items rep)) as [|d ds] eqn:E; [apply date_leb_refl|].
  destruct (max_from_spec ds d) as [Hin _]. rewrite <- E in Hin.
  apply item_dates_In in Hin. destruct Hin as (p & Hp & Hd).
  destruct (Forall2_pick_r _ _ _ _ Hall Hp) as (h & _ & Hit).
  apply item_for_provenance in Hit.
  destruct Hit as [(_ & d' & Hd' & Hle) | (_ & Hnone)]; [|congruence].
  rewrite Hd in Hd'. injection Hd' as <-. exact Hle.
Qed.

(** X17 on the example portfolio. *)
Lemma report_date_not_after_target_portfolio :
  outcome (generate_report Scenario.portfolio Scenario.holdings Scenario.target)
  = Ok (Some Scenario.portfolio_report)
  /\ Date.leb (report_date Scenario.portfolio_report) Scenario.target = true.
Proof.
  assert (Hrun : outcome (generate_report Scenario.portfolio Scenario.holdings
                            Scenario.target)
                 = Ok (Some Scenario.portfolio_report)) by (vm_compute; reflexivity).
  split; [exact Hrun|].
  exact (report_date_not_after_target _ _ _ _ Hrun).
Defined.

Lemma report_step_raises (w : world) (tpex_all : option tpex_table)
      (target_date : Date.date) (st : list item * totals) (h : holding) (e : exn) :
  outcome (Twse.fetch_twse_latest w (h_code h) target_date) = Raise e ->
  outcome (report_step w tpex_all target_date st h) = Raise e.
Proof.
  intros H. unfold report_step, resolve_quote. rewrite !outcome_bind, H. reflexivity.
Qed.

Lemma report_loop_raises (w : world) (tpex_all : option tpex_table)
      (target_date : Date.date) (hs : list holding) (h : holding) (e : exn) :
  In h hs ->
  outcome (Twse.fetch_twse_latest w (h_code h) target_date) = Raise e ->
  forall st, exists e',
    outcome (report_loop w tpex_all target_date hs st) = Raise e'.
Proof.
  intros Hin Hraise. induction hs as [|h0 hs IH]; [destruct Hin|].
  intros st. cbn [report_loop]. rewrite outcome_bind.
  destruct (outcome (report_step w tpex_all target_date st h0)) as [st'|e0] eqn:Es.
  - destruct Hin as [->|Hin].
    + rewrite (report_step_raises _ _ _ _ _ _ Hraise) in Es. discriminate.
    + cbn [rbind]. apply IH, Hin.
  - exists e0. reflexivity.
Qed.

(** X18. The run has no handler. A failed snapshot download ends a run on
    a non-empty ledger there and then, with that exception, before any
    symbol is looked at; and an exception of the primary source for any one
    held symbol ends the run with an exception instead of a report. *)
Theorem generate_report_aborts_on_exception
        (w : world) (hs : list holding) (target_date : Date.date) :
  (forall e, tpex_csv w = Raise e -> hs <> [] ->
     generate_report w hs target_date = ([CallTpexAll], Raise e))
  /\ (forall h e, In h hs ->
        outcome (Twse.fetch_twse_latest w (h_code h) target_date) = Raise e ->
        exists e', outcome (generate_report w hs target_date) = Raise e').
Proof.
  split.
  - intros e He Hne. destruct hs as [|h0 hs0]; [contradiction|].
    unfold generate_report, Tpex.fetch_tpex_latest_all, emit, lift.
    rewrite bind_ok_pair, He. reflexivity.
  - intros h e Hin Hraise. destruct hs as [|h0 hs0]; [destruct Hin|].
    unfold generate_report. rewrite outcome_bind.
    destruct (outcome (Tpex.fetch_tpex_latest_all w)) as [tpex_all|e0];
      [|exists e0; reflexivity].
    cbn [rbind]. rewrite outcome_bind.
    destruct (report_loop_raises w tpex_all target_date (h0 :: hs0) h e Hin Hraise
                ([], zero_totals)) as (e' & ->).
    exists e'. reflexivity.
Qed.

(** X18 on the example portfolio with TWSE unreachable for 6488: the run
    stops at the second holding, after the news request for the first. *)
Lemma generate_report_aborts_on_exception_6488 :
  (In (Ledger.mk "6488" (of_Z 2) (of_Z 1000)) Scenario.holdings
   /\ outcome (Twse.fetch_twse_latest unreachable "6488" Scenario.target)
      = Raise (TransportError "timed out"))
  /\ generate_report unreachable Scenario.holdings Scenario.target
     = ([CallTpexAll; CallTwseMonth "1101" 2024 3; CallNews "1101" (Some "TCC");
         CallTwseMonth "6488" 2024 3],
        Raise (TransportError "timed out"))
  /\ exists e', outcome (generate_report unreachable Scenario.holdings Scenario.target)
                = Raise e'.
Proof.
  assert (Hin : In (Ledger.mk "6488" (of_Z 2) (of_Z 1000)) Scenario.holdings)
    by (right; left; reflexivity).
  assert (Hr : outcome (Twse.fetch_twse_latest unreachable
                          (h_code (Ledger.mk "6488" (of_Z 2) (of_Z 1000)))
                          Scenario.target)
               = Raise (TransportError "timed out")) by reflexivity.
  split; [split; [exact Hin | exact Hr]|].
  split; [vm_compute; reflexivity|].
  exact (proj2 (generate_report_aborts_on_exception unreachable Scenario.holdings
                  Scenario.target) _ _ Hin Hr).
Defined.

End RunOutcome.

Section RunCalls.
Import Py IO Ledger Report Props Coverage.

Lemma fetch_tpex_latest_all_trace (w : world) :
  trace (Tpex.fetch_tpex_latest_all w) = [CallTpexAll].
Proof.
  unfold Tpex.fetch_tpex_latest_all, emit, lift. rewrite bind_ok_pair.
  unfold trace at 1. cbn [fst].
  destruct (tpex_csv w) as [reader|e]; [|reflexivity].
  rewrite bind_ok_pair. unfold trace at 1. cbn [fst app].
  destruct (fst (fold_left Tpex.scan_row reader (None, []))) as [[|c cs]|]; reflexivity.
Qed.

Lemma news_calls_app (a b : list event) :
  news_calls (a ++ b) = news_calls a ++ news_calls b.
Proof.
  induction a as [|e a IH]; [reflexivity|].
  simpl. destruct e; simpl; rewrite IH; reflexivity.
Qed.

Lemma priced_of_app (a b : list item) :
  priced_of (a ++ b) = priced_of a ++ priced_of b.
Proof.
  induction a as [|it a IH]; [reflexivity|].
  simpl. destruct it; simpl; rewrite IH; reflexivity.
Qed.

Lemma resolve_quote_no_news (w : world) (tpex_all : option tpex_table)
      (code : string) (target_date : Date.date) :
  news_calls (trace (resolve_quote w tpex_all code target_date)) = [].
Proof.
  rewrite resolve_quote_trace_eq, news_calls_app.
  assert (H1 : news_calls (trace (Twse.fetch_twse_latest w code target_date)) = []).
  { destruct (fetch_twse_latest_requests w code target_date) as [-> | (pm & _ & ->)];
      reflexivity. }
  rewrite H1.
  destruct (outcome (Twse.fetch_twse_latest w code target_date)) as [[t|]|e];
    [destruct (r_close (t_latest t))| |]; reflexivity.
Qed.

Lemma report_step_news (w : world) (tpex_all : option tpex_table)
      (target_date : Date.date) (st st' : list item * totals) (h : holding) :
  outcome (report_step w tpex_all target_date st h) = Ok st' ->
  exists it, fst st' = fst st ++ [it]
             /\ news_calls (trace (report_step w tpex_all target_date st h))
                = List.map (fun p => (i_code p, i_name p)) (priced_of [it]).
Proof.
  intros H. destruct (report_step_ok _ _ _ _ _ _ H) as (it & (q & Hq & Hit) & Hf & _).
  exists it. split; [exact Hf|].
  rewrite report_step_trace_eq, news_calls_app, resolve_quote_no_news, Hq.
  destruct (q_close q) as [close|].
  - destruct Hit as (dp & news & _ & ->). reflexivity.
  - subst it. reflexivity.
Qed.

Lemma report_loop_news (w : world) (tpex_all : option tpex_table)
      (target_date : Date.date) (hs : list holding) :
  forall st st',
    outcome (report_loop w tpex_all target_date hs st) = Ok st' ->
    exists its, fst st' = fst st ++ its
                /\ news_calls (trace (report_loop w tpex_all target_date hs st))
                   = List.map (fun p => (i_code p, i_name p)) (priced_of its).
Proof.
  induction hs as [|h hs IH]; intros st st' H.
  - simpl in H. injection H as <-. exists []. split; [symmetry; apply app_nil_r | reflexivity].
  - cbn [report_loop] in *. pose proof H as H0.
    apply bind_ok in H. destruct H as (st1 & H1 & H). cbv beta in H.
    destruct (report_step_news _ _ _ _ _ _ H1) as (it & Hf & Hn).
    destruct (IH _ _ H) as (its & Hf' & Hn').
    exists (it :: its). split.
    + rewrite Hf', Hf, <- app_assoc. reflexivity.
    + rewrite trace_bind, H1, news_calls_app, Hn, Hn'.
      change (it :: its) with ([it] ++ its).
      rewrite priced_of_app, List.map_app. reflexivity.
Qed.

(** X19. In a completed run the news feed is asked exactly once for each
    priced entry, in ledger order, with the entry's code and name, and never
    for an unpriced one. *)
Theorem news_requested_for_priced_entries_only
        (w : world) (hs : list holding) (target_date : Date.date) (rep : report) :
  outcome (generate_report w hs target_date) = Ok (Some rep) ->
  news_calls (trace (generate_report w hs target_date))
  = List.map (fun p => (i_code p, i_name p)) (priced_of (items rep)).
Proof.
  unfold generate_report. destruct hs as [|h0 hs0]; [discriminate|].
  intros H. rewrite trace_bind.
  apply bind_ok in H. destruct H as (tpex_all & Ht & H). cbv beta in H.
  rewrite Ht. rewrite trace_bind.
  apply bind_ok in H. destruct H as (st & Hl & H). cbv beta in H.
  rewrite Hl. rewrite outcome_ret in H. injection H as <-.
  destruct (report_loop_news _ _ _ _ _ _ Hl) as (its & Hf & Hn).
  simpl in Hf. cbn [items]. rewrite Hf, <- Hn, !news_calls_app.
  rewrite fetch_tpex_latest_all_trace.
  cbn [trace ret fst news_calls omap app]. rewrite app_nil_r. reflexivity.
Qed.

(** X19 on the example portfolio: news for 1101 and 6488, none for 9999. *)
Lemma news_requested_for_priced_entries_only_portfolio :
  outcome (generate_report Scenario.portfolio Scenario.holdings Scenario.target)
  = Ok (Some Scenario.portfolio_report)
  /\ news_calls (trace (generate_report Scenario.portfolio Scenario.holdings
                          Scenario.target))
     = [("1101", Some "TCC"); ("6488", Some "GlobalWafers")].
Proof.
  assert (Hrun : outcome (generate_report Scenario.portfolio Scenario.holdings
                            Scenario.target)
                 = Ok (Some Scenario.portfolio_report)) by (vm_compute; reflexivity).
  split; [exact Hrun|].
  rewrite (news_requested_for_priced_entries_only _ _ _ _ Hrun). reflexivity.
Defined.

Lemma report_step_lookup (w : world) (tpex_all : option tpex_table)
      (target_date : Date.date) (st : list item * totals) (h : holding)
      (code : string) :
  In (CallTpexRow code) (trace (report_step w tpex_all target_date st h))
  <-> code = h_code h /\ primary_fails w code target_date.
Proof.
  rewrite report_step_trace_eq, in_app_iff. split.
  - intros [H|H].
    + apply resolve_quote_trace in H. destruct H as [-> Hf]. split; [reflexivity | exact Hf].
    + destruct (outcome (resolve_quote w tpex_all (h_code h) target_date)) as [q|e];
        [destruct (q_close q)|];
        first [destruct H as [H|[]]; discriminate | destruct H].
  - intros [-> Hf]. left. rewrite resolve_quote_trace_eq, in_app_iff. right.
    destruct Hf as [-> | (t & -> & ->)]; left; reflexivity.
Qed.

Lemma report_loop_lookup_held (w : world) (tpex_all : option tpex_table)
      (target_date : Date.date) (hs : list holding) (code : string) :
  forall st,
    In (CallTpexRow code) (trace (report_loop w tpex_all target_date hs st)) ->
    In code (List.map h_code hs) /\ primary_fails w code target_date.
Proof.
  induction hs as [|h hs IH]; intros st H; [destruct H|].
  cbn [report_loop] in H. rewrite trace_bind, in_app_iff in H.
  destruct H as [H|H].
  - apply report_step_lookup in H. destruct H as [-> Hf].
    split; [left; reflexivity | exact Hf].
  - destruct (outcome (report_step w tpex_all target_date st h)) as [st'|e]; [|destruct H].
    destruct (IH st' H) as [Hin Hf]. split; [right; exact Hin | exact Hf].
Qed.

Lemma report_loop_lookup_made (w : world) (tpex_all : option tpex_table)
      (target_date : Date.date) (hs : list holding) (h : holding) :
  In h hs ->
  primary_fails w (h_code h) target_date ->
  forall st st',
    outcome (report_loop w tpex_all target_date hs st) = Ok st' ->
    In (CallTpexRow (h_code h)) (trace (report_loop w tpex_all target_date hs st)).
Proof.
  intros Hin Hf. induction hs as [|h0 hs IH]; [destruct Hin|].
  intros st st' H. cbn [report_loop] in *. rewrite trace_bind, in_app_iff.
  apply bind_ok in H. destruct H as (st1 & H1 & H). cbv beta in H.
  destruct Hin as [->|Hin].
  - left. apply report_step_lookup. split; [reflexivity | exact Hf].
  - right. rewrite H1. exact (IH Hin _ _ H).
Qed.

(** X20. In a completed run the secondary snapshot is searched for a
    symbol exactly when the symbol is held and the primary source gave it
    no close. *)
Theorem secondary_lookup_iff_primary_fails
        (w : world) (hs : list holding) (target_date : Date.date) (rep : report)
        (code : string) :
  outcome (generate_report w hs target_date) = Ok (Some rep) ->
  (In (CallTpexRow code) (trace (generate_report w hs target_date))
   <-> In code (List.map h_code hs) /\ primary_fails w code target_date).
Proof.
  unfold generate_report. destruct hs as [|h0 hs0]; [discriminate|].
  intros H. rewrite trace_bind.
  apply bind_ok in H. destruct H as (tpex_all & Ht & H). cbv beta in H.
  rewrite Ht, trace_bind.
  apply bind_ok in H. destruct H as (st & Hl & H). cbv beta in H.
  rewrite Hl. cbn [trace ret fst]. rewrite app_nil_r, in_app_iff.
  assert (H0 : ~ In (CallTpexRow code) (trace (Tpex.fetch_tpex_latest_all w))).
  { rewrite fetch_tpex_latest_all_trace. intros [E|[]]. discriminate. }
  split.
  - intros [Hx|Hx]; [contradiction|].
    exact (report_loop_lookup_held _ _ _ _ _ _ Hx).
  - intros [Hin Hf]. right.
    apply in_map_iff in Hin. destruct Hin as (h & <- & Hin).
    exact (report_loop_lookup_made _ _ _ _ _ Hin Hf _ _ Hl).
Qed.

(** X20 on the example portfolio: 6488 and 9999 are searched, 1101 is not. *)
Lemma secondary_lookup_iff_primary_fails_portfolio :
  outcome (generate_report Scenario.portfolio Scenario.holdings Scenario.target)
  = Ok (Some Scenario.portfolio_report)
  /\ In (CallTpexRow "9999")
        (trace (generate_report Scenario.portfolio Scenario.holdings Scenario.target))
  /\ In "9999" (List.map h_code Scenario.holdings)
  /\ primary_fails Scenario.portfolio "9999" Scenario.target.
Proof.
  assert (Hrun : outcome (generate_report Scenario.portfolio Scenario.holdings
                            Scenario.target)
                 = Ok (Some Scenario.portfolio_report)) by (vm_compute; reflexivity).
  assert (Hin : In (CallTpexRow "9999")
                   (trace (generate_report Scenario.portfolio Scenario.holdings
                             Scenario.target)))
    by (vm_compute; intuition).
  split; [exact Hrun|]. split; [exact Hin|].
  exact (proj1 (secondary_lookup_iff_primary_fails _ _ _ _ "9999" Hrun) Hin).
Defined.

End RunCalls.

(* ===================================================================== *)
(** ** The report date against the primary resolutions                    *)
(* ===================================================================== *)

Section ReportDateResolved.
Import Py IO Ledger Report Props.

(** A dated entry was priced by the primary source, and carries the date
    of the row the primary resolution returned for its holding. *)
Lemma item_for_dated (w : world) (tpex_all : option tpex_table)
      (target_date : Date.date) (h : holding) (p : priced) (d : Date.date) :
  item_for w tpex_all target_date h (Priced p) ->
  i_date p = Some d ->
  exists t c, primary_close w (h_code h) target_date t c
              /\ r_date (t_latest t) = Some d.
Proof.
  intros (q & Hq & Hit) Hd.
  destruct (resolve_quote_cases _ _ _ _ _ Hq) as [(t & c & Hprim & ->) | (_ & Hs)].
  - simpl in Hit. destruct Hit as (dp & news & _ & Hit). injection Hit as ->.
    simpl in Hd. eauto.
  - destruct (secondary_quote_cases _ _ _ _ Hs) as [-> | [_ Hdate]].
    + simpl in Hit. discriminate.
    + destruct (q_close q) as [close|]; [|discriminate].
      destruct Hit as (dp & news & _ & Hit). injection Hit as ->.
      simpl in Hd. congruence.
Qed.

(** The entry of a holding with a primary close carries the date of the
    primary row. *)
Lemma item_for_primary (w : world) (tpex_all : option tpex_table)
      (target_date : Date.date) (h : holding) (it : item)
      (t : twse_latest) (c : float) :
  item_for w tpex_all target_date h it ->
  primary_close w (h_code h) target_date t c ->
  exists p, it = Priced p /\ i_date p = r_date (t_latest t).
Proof.
  intros (q & Hq & Hit) Hprim.
  rewrite (resolve_quote_primary _ tpex_all _ _ _ _ Hprim) in Hq.
  injection Hq as <-. simpl in Hit.
  destruct Hit as (dp & news & _ & ->). eexists. split; reflexivity.
Qed.

(** C9. In a completed run the report date is the target date when no
    entry carries a trading date, which is the case when the primary source
    gave no held symbol a close. Otherwise it is the maximum of the trading
    dates: it is the date of the row the primary resolution returned for
    some held symbol, it is the trading date of some priced entry, and no
    primary row of a held symbol and no priced entry carries a later
    date. *)
Theorem report_date_is_latest_trading_date
        (w : world) (hs : list holding) (target_date : Date.date) (rep : report) :
  outcome (generate_report w hs target_date) = Ok (Some rep) ->
  ((forall p, In (Priced p) (items rep) -> i_date p = None) ->
   report_date rep = target_date)
  /\ ((exists p, In (Priced p) (items rep) /\ i_date p <> None) ->
      (exists p, In (Priced p) (items rep) /\ i_date p = Some (report_date rep))
      /\ forall p d, In (Priced p) (items rep) -> i_date p = Some d ->
                     Date.leb d (report_date rep) = true)
  /\ ((forall h, In h hs -> primary_fails w (h_code h) target_date) ->
      report_date rep = target_date)
  /\ (forall h t c, In h hs -> primary_close w (h_code h) target_date t c ->
        (exists d, r_date (t_latest t) = Some d
                   /\ Date.leb d (report_date rep) = true)
        /\ exists h' t' c',
             In h' hs
             /\ primary_close w (h_code h') target_date t' c'
             /\ r_date (t_latest t') = Some (report_date rep)).
Proof.
  intros Hrun.
  destruct (generate_report_ok _ _ _ _ Hrun) as (tpex_all & _ & Hall & _ & Hdate).
  assert (Hnone : (forall p, In (Priced p) (items rep) -> i_date p = None) ->
                  report_date rep = target_date).
  { intros Hn. rewrite Hdate. unfold report_date_of.
    destruct (omap item_date (items rep)) as [|d ds] eqn:E; [reflexivity|].
    exfalso.
    assert (Hd : In d (omap item_date (items rep))) by (rewrite E; left; reflexivity).
    apply item_dates_In in Hd. destruct Hd as (p & Hp & Hd).
    rewrite (Hn p Hp) in Hd. discriminate. }
  assert (Hsome : (exists p, In (Priced p) (items rep) /\ i_date p <> None) ->
                  (exists p, In (Priced p) (items rep)
                             /\ i_date p = Some (report_date rep))
                  /\ forall p d, In (Priced p) (items rep) -> i_date p = Some d ->
                                 Date.leb d (report_date rep) = true).
  { intros (p0 & Hp0 & Hd0). rewrite Hdate. unfold report_date_of.
    destruct (omap item_date (items rep)) as [|d ds] eqn:E.
    - exfalso. destruct (i_date p0) as [d|] eqn:Ed; [|congruence].
      assert (Hin : In d (omap item_date (items rep))) by (apply item_dates_In; eauto).
      rewrite E in Hin. destruct Hin.
    - destruct (max_from_spec ds d) as [Hin Hmax]. split.
      + apply item_dates_In. rewrite E. exact Hin.
      + intros p x Hp Hx. apply Hmax. rewrite <- E. apply item_dates_In. eauto. }
  split; [exact Hnone|]. split; [exact Hsome|]. split.
  - intros Hfail. apply Hnone. intros p Hp.
    destruct (i_date p) as [d|] eqn:Ed; [|reflexivity]. exfalso.
    destruct (Forall2_pick_r _ _ _ _ Hall Hp) as (h & Hh & Hit).
    destruct (item_for_dated _ _ _ _ _ _ Hit Ed) as (t & c & Hprim & _).
    exact (primary_close_not_fails _ _ _ _ _ Hprim (Hfail h Hh)).
  - intros h t c Hh Hprim.
    destruct (Forall2_pick_l _ _ _ _ Hall Hh) as (it & Hin & Hit).
    destruct (item_for_primary _ _ _ _ _ _ _ Hit Hprim) as (p & -> & Hp).
    destruct (primary_date_bound _ _ _ _ (proj1 Hprim)) as (d & Hd & _).
    assert (Hpd : i_date p = Some d) by congruence.
    destruct Hsome as [(p' & Hp' & Hd') Hmax]; [exists p; split; [exact Hin | congruence]|].
    split.
    + exists d. split; [exact Hd | exact (Hmax p d Hin Hpd)].
    + destruct (Forall2_pick_r _ _ _ _ Hall Hp') as (h' & Hh' & Hit').
      destruct (item_for_dated _ _ _ _ _ _ Hit' Hd') as (t' & c' & Hprim' & Hd'').
      exists h', t', c'. repeat split; assumption || apply Hprim'.
Qed.

(** C9 on a run whose tables lag: target 2024-03-06, 2002 resolved to its
    row of 03-04, 1101 to its row of 03-05, 6488 from the undated snapshot.
    The report date is 03-05: neither the target date nor the date of the
    first entry. *)
Lemma report_date_is_latest_trading_date_portfolio :
  (outcome (generate_report Lagging.world_of Lagging.holdings Lagging.target)
   = Ok (Some Lagging.run)
   /\ In (Ledger.mk "2002" (of_Z 3) (of_Z 25)) Lagging.holdings
   /\ primary_close Lagging.world_of "2002" Lagging.target Lagging.latest_2002
        (Scenario.dec 245 10))
  /\ List.map item_date (items Lagging.run)
     = [Some (Date.mk 2024 3 4); Some (Date.mk 2024 3 5); None]
  /\ report_date Lagging.run = Date.mk 2024 3 5
  /\ report_date Lagging.run <> Lagging.target
  /\ (exists d, r_date (t_latest Lagging.latest_2002) = Some d
                /\ Date.leb d (report_date Lagging.run) = true)
  /\ (exists h' t' c',
        In h' Lagging.holdings
        /\ primary_close Lagging.world_of (h_code h') Lagging.target t' c'
        /\ r_date (t_latest t') = Some (report_date Lagging.run))
  /\ forall p d, In (Priced p) (items Lagging.run) -> i_date p = Some d ->
                 Date.leb d (report_date Lagging.run) = true.
Proof.
  assert (Hrun : outcome (generate_report Lagging.world_of Lagging.holdings
                            Lagging.target)
                 = Ok (Some Lagging.run)) by (vm_compute; reflexivity).
  assert (Hheld : In (Ledger.mk "2002" (of_Z 3) (of_Z 25)) Lagging.holdings)
    by (left; reflexivity).
  assert (Hprim : primary_close Lagging.world_of
                    (h_code (Ledger.mk "2002" (of_Z 3) (of_Z 25)))
                    Lagging.target Lagging.latest_2002 (Scenario.dec 245 10))
    by (split; reflexivity).
  destruct (report_date_is_latest_trading_date _ _ _ _ Hrun)
    as (_ & Hsome & _ & Hres).
  destruct (Hres _ _ _ Hheld Hprim) as [Hle Hex].
  destruct Hsome as [_ Hmax].
  { eexists. split; [left; reflexivity | discriminate]. }
  split; [split; [exact Hrun | split; [exact Hheld | exact Hprim]]|].
  split; [reflexivity|]. split; [reflexivity|]. split; [discriminate|].
  split; [exact Hle|]. split; [exact Hex | exact Hmax].
Defined.

End ReportDateResolved.
